(** * packetgen connections (db1000n): a shallow embedding

    The Go file [connection.go] of package [packetgen] opens one of two
    transports behind the [Connection] interface:

    - [rawConn]: a raw IP packet socket ([net.ListenPacket] wrapped by
      [ipv6.NewPacketConn]); every [Write] serialises the packet into the
      connection's reusable [gopacket.SerializeBuffer] and sends the
      buffer's bytes to the address carried by the packet;
    - [netConn]: a socket obtained through the proxy-aware dial function,
      optionally wrapped by a TLS client.

    Go values are modelled as follows.  An [error] is an inductive value
    ([nil] is [None] of [option error]); a pointer that may be [nil] is an
    [option]; an interface value keeps its dynamic type, so the [nil]
    interface and an interface that holds a [nil] pointer are different
    values, as they are in Go.  The operating system, the proxy dialer,
    the TLS library and the argument decoder are collaborators: their
    answers come from an environment record [Env], and every call that
    reaches the network is appended to the [trace] of the [World]. *)

From Stdlib Require Import Strings.Byte.
From stdpp Require Import base strings list gmap.

Local Open Scope string_scope.
Local Open Scope list_scope.
Local Open Scope Z_scope.

(** ** Errors *)

(** A Go [error].  [errorString] is what [errors.New] and [fmt.Errorf]
    without [%w] build; [wrapError] is what [fmt.Errorf] builds when its
    format has a [%w] verb: the whole formatted message and the wrapped
    error. *)
Inductive error : Type :=
  | errorString (s : string)
  | wrapError (msg : string) (err : error).

(** [err.Error()] *)
Definition Error (e : error) : string :=
  match e with
  | errorString s => s
  | wrapError msg _ => msg
  end.

(** [errors.Unwrap(err)] *)
Definition Unwrap (e : error) : option error :=
  match e with
  | errorString _ => None
  | wrapError _ err => Some err
  end.

(** [fmt.Errorf(prefix + "%w", err)] *)
Definition Errorf_w (prefix : string) (err : error) : error :=
  wrapError (prefix +:+ Error err) err.

(** [fmt.Errorf(prefix + "%v", v)] for a string [v] *)
Definition Errorf_v (prefix : string) (v : string) : error :=
  errorString (prefix +:+ v).

(** [strings.HasPrefix(s, prefix)] *)
Fixpoint HasPrefix (s prefix : string) {struct prefix} : bool :=
  match prefix with
  | EmptyString => true
  | String a prefix' =>
      match s with
      | EmptyString => false
      | String b s' => Ascii.eqb a b && HasPrefix s' prefix'
      end
  end.

(** [needle] occurs in [hay] ([strings.Contains(hay, needle)]). *)
Fixpoint contains (needle hay : string) : bool :=
  HasPrefix hay needle ||
  match hay with
  | EmptyString => false
  | String _ rest => contains needle rest
  end.

(** ** Values of type [any] found in [Args] *)
Inductive any : Type :=
  | AnyNil
  | AnyString (s : string)
  | AnyInt (z : Z)
  | AnyBool (b : bool).

(** ** Serialisation buffer and packets *)

(** [gopacket.SerializeBuffer], seen through [Bytes()]. *)
Record SerializeBuffer : Type := mkSerializeBuffer { Bytes : list byte }.

(** [gopacket.NewSerializeBuffer()] *)
Definition NewSerializeBuffer : SerializeBuffer := mkSerializeBuffer [].

(** The [Packet] capability consumed by [Write].  [Serialize] receives the
    buffer object and mutates it: here it returns the buffer as it leaves
    it, with the error.  [IP] is the destination of a raw send. *)
Record Packet : Type := mkPacket {
  Serialize : SerializeBuffer -> SerializeBuffer * option error;
  IP : list byte
}.

(** The outcome of a method call through an interface: a nil dereference
    panics. *)
Inductive outcome (A : Type) : Type :=
  | Returns (a : A)
  | Panics.
Arguments Returns {A} a.
Arguments Panics {A}.

(** ** Configuration *)

(** [rawConnConfig]; its [Address] field is [rawAddress] here, the name
    [Address] being taken by the field of [netConnConfig]. *)
Record rawConnConfig : Type := mkRawConnConfig {
  Name : string;
  rawAddress : string
}.

Section Transport.

(** Types declared outside this file: [context.Context], [tls.Config]
    and [utils.ProxyParams], with the zero value [utils.ProxyParams{}]. *)
Context {Context TLSConfig ProxyParams : Type}.
Variable ProxyParams_zero : ProxyParams.

Record netConnConfig : Type := mkNetConnConfig {
  Protocol : string;
  Address : string;
  Timeout : Z;
  Proxy : ProxyParams;
  TLSClientConfig : option TLSConfig
}.

(** [ConnectionConfig].  [Type] is [Type_] here, and [Proxy], a pointer
    whose [nil] is [None], is [cProxy]. *)
Record ConnectionConfig : Type := mkConnectionConfig {
  Type_ : string;
  Args : gmap string any;
  cProxy : option ProxyParams
}.

(** ** The world outside *)

(** A socket handle. *)
Definition fd : Type := nat.

(** A [net.Conn] held by a [netConn]: the dialed socket, or the TLS
    client that [tls.Client] wrapped around it. *)
Inductive Conn : Type :=
  | plainConn (s : fd)
  | tlsConn (s : fd) (cfg : TLSConfig).

(** The dialed socket under a [net.Conn]. *)
Definition Conn_socket (c : Conn) : fd :=
  match c with
  | plainConn s => s
  | tlsConn s _ => s
  end.

(** The calls that reach a collaborator, in the order they were made. *)
Inductive Event : Type :=
  | EvListenPacket (network address : string)
  | EvWriteTo (s : fd) (b : list byte) (dst : list byte)
  | EvDial (params : ProxyParams) (protocol network address : string)
  | EvHandshake (s : fd)
  | EvWrite (c : Conn) (b : list byte)
  | EvRead (c : Conn) (len : nat)
  | EvClose (s : fd).

Record World : Type := mkWorld {
  trace : list Event;
  opened : nat
}.

(** The answers of the collaborators.  Each sees the calls made so far,
    so an answer may change from one call to the next. *)
Record Env : Type := mkEnv {
  (** [utils.Decode(c.Args, &cfg)] with [cfg] a [rawConnConfig] *)
  Decode_rawConnConfig : gmap string any -> rawConnConfig + error;
  (** [utils.Decode(c.Args, &cfg)] with [cfg] a [netConnConfig] *)
  Decode_netConnConfig : gmap string any -> netConnConfig + error;
  (** [net.ListenPacket(network, address)]: [None] when it succeeds *)
  os_ListenPacket : list Event -> string -> string -> option error;
  (** [PacketConn.WriteTo(b, nil, dst)] *)
  os_WriteTo : list Event -> fd -> list byte -> list byte -> Z * option error;
  (** the dial function of [utils.GetProxyFunc(ctx, params, protocol)]
      applied to [(network, address)]: [None] when it succeeds *)
  os_Dial : list Event -> Context -> ProxyParams -> string -> string -> string -> option error;
  (** [tlsConn.Handshake()] *)
  os_Handshake : list Event -> fd -> TLSConfig -> option error;
  (** [Conn.Write(b)] *)
  os_Write : list Event -> Conn -> list byte -> Z * option error;
  (** [Conn.Read(buf)]: the count, the error and the bytes stored *)
  os_Read : list Event -> Conn -> nat -> Z * option error * list byte;
  (** [Close()] of a socket *)
  os_Close : list Event -> fd -> option error
}.

Variable E : Env.

Definition emit (ev : Event) (w : World) : World :=
  mkWorld (trace w ++ [ev]) (opened w).

(** A call that opens a socket hands out the next handle. *)
Definition emit_open (ev : Event) (w : World) : fd * World :=
  (opened w, mkWorld (trace w ++ [ev]) (S (opened w))).

(** [net.ListenPacket(network, address)] *)
Definition net_ListenPacket (network address : string) (w : World)
  : (fd + error) * World :=
  match os_ListenPacket E (trace w) network address with
  | Some err => (inr err, emit (EvListenPacket network address) w)
  | None =>
      let '(s, w') := emit_open (EvListenPacket network address) w in
      (inl s, w')
  end.

(** [pc.WriteTo(b, nil, &net.IPAddr{IP: dst})] *)
Definition PacketConn_WriteTo (s : fd) (b dst : list byte) (w : World)
  : Z * option error * World :=
  let '(n, err) := os_WriteTo E (trace w) s b dst in
  (n, err, emit (EvWriteTo s b dst) w).

(** [pc.Close()] of the raw socket *)
Definition PacketConn_Close (s : fd) (w : World) : option error * World :=
  (os_Close E (trace w) s, emit (EvClose s) w).

(** Modelled from the spec: [utils.NonNilOrDefault], which is not in the
    sources at hand; a missing proxy is replaced by the default given. *)
Definition NonNilOrDefault {T : Type} (v : option T) (dflt : T) : T :=
  match v with
  | Some x => x
  | None => dflt
  end.

(** [utils.GetProxyFunc(ctx, params, protocol)(network, address)] *)
Definition GetProxyFunc (ctx : Context) (params : ProxyParams) (protocol : string)
    (network address : string) (w : World) : (Conn + error) * World :=
  match os_Dial E (trace w) ctx params protocol network address with
  | Some err => (inr err, emit (EvDial params protocol network address) w)
  | None =>
      let '(s, w') := emit_open (EvDial params protocol network address) w in
      (inl (plainConn s), w')
  end.

(** [tls.Client(conn, config)]: wraps the socket, no I/O yet. *)
Definition tls_Client (conn : Conn) (cfg : TLSConfig) : Conn :=
  tlsConn (Conn_socket conn) cfg.

(** [tlsConn.Handshake()] *)
Definition Conn_Handshake (c : Conn) (w : World) : option error * World :=
  match c with
  | plainConn _ => (None, w)
  | tlsConn s cfg => (os_Handshake E (trace w) s cfg, emit (EvHandshake s) w)
  end.

(** [conn.Close()]: a TLS client closes the socket it wraps. *)
Definition Conn_Close (c : Conn) (w : World) : option error * World :=
  (os_Close E (trace w) (Conn_socket c), emit (EvClose (Conn_socket c)) w).

(** [conn.Write(b)] *)
Definition Conn_Write (c : Conn) (b : list byte) (w : World)
  : Z * option error * World :=
  let '(n, err) := os_Write E (trace w) c b in
  (n, err, emit (EvWrite c b) w).

(** [conn.Read(buf)] with [len(buf) = len]: also the bytes stored. *)
Definition Conn_Read (c : Conn) (len : nat) (w : World)
  : Z * option error * list byte * World :=
  (os_Read E (trace w) c len, emit (EvRead c len) w).

(** ** The raw transport *)

(** [rawConn]: the embedded [*ipv6.PacketConn] (the socket it wraps),
    [buf] and [target]. *)
Record rawConn : Type := mkRawConn {
  PacketConn : fd;
  buf : SerializeBuffer;
  target : string
}.

(** [openRawConn(c)]: the pointer returned ([None] is [nil]) and the error. *)
Definition openRawConn (c : rawConnConfig) (w : World)
  : option rawConn * option error * World :=
  match net_ListenPacket (Name c) (rawAddress c) w with
  | (inr err, w') => (None, Some err, w')
  | (inl packetConn, w') =>
      (Some (mkRawConn packetConn NewSerializeBuffer (Name c +:+ "://" +:+ rawAddress c)),
       None, w')
  end.

(** [(conn *rawConn).Write(packet)]: the connection as the call leaves
    it (its buffer is written by [Serialize]), the count and the error. *)
Definition rawConn_Write (conn : rawConn) (packet : Packet) (w : World)
  : rawConn * (Z * option error) * World :=
  let '(b, serr) := Serialize packet (buf conn) in
  let conn' := mkRawConn (PacketConn conn) b (target conn) in
  match serr with
  | Some err => (conn', (0, Some (Errorf_w "error serializing packet: " err)), w)
  | None =>
      let '(n, err, w') := PacketConn_WriteTo (PacketConn conn) (Bytes b) (IP packet) w in
      (conn', (n, err), w')
  end.

(** [(conn *rawConn).Close()] *)
Definition rawConn_Close (conn : rawConn) (w : World) : option error * World :=
  PacketConn_Close (PacketConn conn) w.

(** [(conn *rawConn).Target()] *)
Definition rawConn_Target (conn : rawConn) : string := target conn.

(** [(conn *rawConn).Read(_)]: the receiver is not touched, so the
    method also runs on a [nil] pointer. *)
Definition rawConn_Read (conn : option rawConn) (b : list byte) (w : World)
  : Z * option error * World :=
  (0, None, w).

(** ** The stream transport *)

(** [netConn]: the embedded [net.Conn] ([nConn]), [buf] ([nbuf]) and
    [target] ([ntarget]). *)
Record netConn : Type := mkNetConn {
  nConn : Conn;
  nbuf : SerializeBuffer;
  ntarget : string
}.

(** [openNetConn(ctx, c, proxyParams)] *)
Definition openNetConn (ctx : Context) (c : netConnConfig)
    (proxyParams : option ProxyParams) (w : World)
  : option netConn * option error * World :=
  match GetProxyFunc ctx (NonNilOrDefault proxyParams ProxyParams_zero) (Protocol c)
          (Protocol c) (Address c) w with
  | (inr err, w1) => (None, Some err, w1)
  | (inl conn, w1) =>
      match TLSClientConfig c with
      | None =>
          (Some (mkNetConn conn NewSerializeBuffer (Protocol c +:+ "://" +:+ Address c)),
           None, w1)
      | Some cfg =>
          let tc := tls_Client conn cfg in
          match Conn_Handshake tc w1 with
          | (Some err, w2) =>
              let '(_, w3) := Conn_Close tc w2 in
              (None, Some err, w3)
          | (None, w2) =>
              (Some (mkNetConn tc NewSerializeBuffer (Protocol c +:+ "://" +:+ Address c)),
               None, w2)
          end
      end
  end.

(** [(conn *netConn).Write(packet)] *)
Definition netConn_Write (conn : netConn) (packet : Packet) (w : World)
  : netConn * (Z * option error) * World :=
  let '(b, serr) := Serialize packet (nbuf conn) in
  let conn' := mkNetConn (nConn conn) b (ntarget conn) in
  match serr with
  | Some err => (conn', (0, Some (Errorf_w "error serializing packet: " err)), w)
  | None =>
      let '(n, err, w') := Conn_Write (nConn conn) (Bytes b) w in
      (conn', (n, err), w')
  end.

(** [(conn *netConn).Close()] *)
Definition netConn_Close (conn : netConn) (w : World) : option error * World :=
  Conn_Close (nConn conn) w.

(** [(conn *netConn).Target()] *)
Definition netConn_Target (conn : netConn) : string := ntarget conn.

(** [(conn *netConn).Read(buf)] *)
Definition netConn_Read (conn : netConn) (len : nat) (w : World)
  : Z * option error * list byte * World :=
  Conn_Read (nConn conn) len w.

(** ** The [Connection] interface and the factory *)

(** A value of interface type [Connection]: the [nil] interface, or a
    pointer of dynamic type [*rawConn] or [*netConn].  The pointer may
    itself be [nil] ([None]); such an interface value is not [nil]. *)
Inductive Connection : Type :=
  | Connection_nil
  | Connection_raw (p : option rawConn)
  | Connection_net (p : option netConn).

(** [conn == nil] for [conn] of type [Connection] *)
Definition Connection_is_nil (c : Connection) : bool :=
  match c with
  | Connection_nil => true
  | _ => false
  end.

(** The connection object an interface value points to, if any. *)
Definition Connection_live (c : Connection) : bool :=
  match c with
  | Connection_raw (Some _) | Connection_net (Some _) => true
  | _ => false
  end.

(** [OpenConnection(ctx, c)] *)
Definition OpenConnection (ctx : Context) (c : ConnectionConfig) (w : World)
  : Connection * option error * World :=
  if String.eqb (Type_ c) "raw" then
    match Decode_rawConnConfig E (Args c) with
    | inr err =>
        (Connection_nil, Some (Errorf_w "error decoding connection config: " err), w)
    | inl cfg =>
        let '(p, err, w') := openRawConn cfg w in
        (Connection_raw p, err, w')
    end
  else if String.eqb (Type_ c) "net" then
    match Decode_netConnConfig E (Args c) with
    | inr err =>
        (Connection_nil, Some (Errorf_w "error decoding connection config: " err), w)
    | inl cfg =>
        let '(p, err, w') := openNetConn ctx cfg (cProxy c) w in
        (Connection_net p, err, w')
    end
  else
    (Connection_nil, Some (Errorf_v "unknown connection type: " (Type_ c)), w).

(** [c.Target()] *)
Definition Connection_Target (c : Connection) : outcome string :=
  match c with
  | Connection_raw (Some conn) => Returns (rawConn_Target conn)
  | Connection_net (Some conn) => Returns (netConn_Target conn)
  | _ => Panics
  end.

(** [c.Write(packet)] *)
Definition Connection_Write (c : Connection) (packet : Packet) (w : World)
  : outcome (Connection * (Z * option error) * World) :=
  match c with
  | Connection_raw (Some conn) =>
      let '(conn', r, w') := rawConn_Write conn packet w in
      Returns (Connection_raw (Some conn'), r, w')
  | Connection_net (Some conn) =>
      let '(conn', r, w') := netConn_Write conn packet w in
      Returns (Connection_net (Some conn'), r, w')
  | _ => Panics
  end.

(** [c.Read(buf)]: the count, the error and the bytes stored in [buf]. *)
Definition Connection_Read (c : Connection) (b : list byte) (w : World)
  : outcome (Z * option error * list byte * World) :=
  match c with
  | Connection_raw p =>
      let '(n, err, w') := rawConn_Read p b w in
      Returns (n, err, b, w')
  | Connection_net (Some conn) =>
      let '(n, err, data, w') := netConn_Read conn (length b) w in
      Returns (n, err, data ++ drop (length data) b, w')
  | _ => Panics
  end.

(** [c.Close()] *)
Definition Connection_Close (c : Connection) (w : World)
  : outcome (option error * World) :=
  match c with
  | Connection_raw (Some conn) => Returns (rawConn_Close conn w)
  | Connection_net (Some conn) => Returns (netConn_Close conn w)
  | _ => Panics
  end.

(** ** Sequences of calls on one connection *)

Inductive Call : Type :=
  | CallWrite (packet : Packet)
  | CallRead (b : list byte).

(** The calls of [cs] made in order on a raw connection. *)
Fixpoint rawConn_calls (cs : list Call) (conn : rawConn) (w : World)
  : rawConn * World :=
  match cs with
  | [] => (conn, w)
  | CallWrite packet :: cs' =>
      let '(conn', _, w') := rawConn_Write conn packet w in
      rawConn_calls cs' conn' w'
  | CallRead b :: cs' =>
      let '(_, _, w') := rawConn_Read (Some conn) b w in
      rawConn_calls cs' conn w'
  end.

(** The calls of [cs] made in order on a stream connection. *)
Fixpoint netConn_calls (cs : list Call) (conn : netConn) (w : World)
  : netConn * World :=
  match cs with
  | [] => (conn, w)
  | CallWrite packet :: cs' =>
      let '(conn', _, w') := netConn_Write conn packet w in
      netConn_calls cs' conn' w'
  | CallRead b :: cs' =>
      let '(_, _, _, w') := netConn_Read conn (length b) w in
      netConn_calls cs' conn w'
  end.

End Transport.

(** The outside types are implicit arguments of every operation; the type
    formers take them explicitly. *)
Arguments netConnConfig : clear implicits.
Arguments ConnectionConfig : clear implicits.
Arguments Conn : clear implicits.
Arguments Event : clear implicits.
Arguments World : clear implicits.
Arguments Env : clear implicits.
Arguments netConn : clear implicits.
Arguments Connection : clear implicits.

(** * Sample collaborators

    Concrete packets and environments on which the operations run.  The
    outside types are instantiated by [unit] for [context.Context] and
    [tls.Config], and by the proxy address for [utils.ProxyParams]. *)

(** Modelled from the spec: the contract of [Packet.Serialize] (the
    [Packet] type is not among the sources at hand).  It "encodes itself
    into the supplied reusable buffer (overwriting, not appending to, any
    prior content)": what it leaves and what it returns do not depend on
    what the buffer held. *)
Definition overwriting (packet : Packet) : Prop :=
  forall b : SerializeBuffer, Serialize packet b = Serialize packet NewSerializeBuffer.

(** Modelled from the spec: a [Packet] that honours the contract; it
    leaves [wire] in the buffer (whatever part was encoded, when the result
    [res] is an error). *)
Definition encoded (wire : list byte) (res : option error) (ip : list byte) : Packet :=
  mkPacket (fun _ => (mkSerializeBuffer wire, res)) ip.

(** A [Serialize] that appends to the buffer, against the contract. *)
Definition appending (wire : list byte) (ip : list byte) : Packet :=
  mkPacket (fun b => (mkSerializeBuffer (Bytes b ++ wire), None)) ip.

Definition PING : Packet := encoded (String.list_byte_of_string "PING") None [x7f; x00; x00; x01]%byte.
Definition PONG : Packet := encoded (String.list_byte_of_string "PONG") None [x0a; x00; x00; x02]%byte.
Definition BROKEN : Packet :=
  encoded (String.list_byte_of_string "PI") (Some (errorString "invalid layer")) [x7f; x00; x00; x01]%byte.

(** Modelled from the spec: [utils.Decode] (not among the sources at hand)
    for a [string] field of the shapes of the spec's section 6: an absent
    field keeps its zero value, a value of another kind is a decode
    failure. *)
Definition decode_string (args : gmap string any) (field : string) : string + error :=
  match args !! field with
  | None | Some AnyNil => inl ""
  | Some (AnyString s) => inl s
  | Some _ => inr (errorString ("'" +:+ field +:+ "' expected type 'string'"))
  end.

(** Modelled from the spec: [utils.Decode] into a [rawConnConfig]. *)
Definition sample_Decode_raw (args : gmap string any) : rawConnConfig + error :=
  match decode_string args "Name" with
  | inr err => inr err
  | inl name =>
      match decode_string args "Address" with
      | inr err => inr err
      | inl address => inl (mkRawConnConfig name address)
      end
  end.

(** Modelled from the spec: [utils.Decode] into a [netConnConfig]; a TLS
    client configuration cannot be given in [Args]. *)
Definition sample_Decode_net (args : gmap string any) : netConnConfig unit string + error :=
  match decode_string args "Protocol" with
  | inr err => inr err
  | inl protocol =>
      match decode_string args "Address" with
      | inr err => inr err
      | inl address => inl (mkNetConnConfig protocol address 0 "" None)
      end
  end.



(** An environment whose listen, dial and handshake answer as given, and
    whose writes accept every byte. *)
Definition sample_env (listen dial handshake : option error) : Env unit unit string :=
  mkEnv sample_Decode_raw sample_Decode_net
    (fun _ _ _ => listen)
    (fun _ _ b _ => (Z.of_nat (length b), None))
    (fun _ _ _ _ _ _ => dial)
    (fun _ _ _ => handshake)
    (fun _ _ b => (Z.of_nat (length b), None))
    (fun _ _ _ => (0, None, []))
    (fun _ _ => None).

Definition world0 : World unit string := mkWorld [] 0.

Definition raw_config : ConnectionConfig string :=
  mkConnectionConfig "raw" {[ "Name" := AnyString "ip6:ip"; "Address" := AnyString "::" ]} None.

Definition net_config : ConnectionConfig string :=
  mkConnectionConfig "net"
    {[ "Protocol" := AnyString "tcp"; "Address" := AnyString "example:80" ]} None.

Definition udp_config : ConnectionConfig string :=
  mkConnectionConfig "udp" {[ "Address" := AnyString "example:53" ]} None.

(** The stream shape with a TLS client configuration. *)
Definition tls_netConnConfig : netConnConfig unit string :=
  mkNetConnConfig "tcp" "example:443" 0 "" (Some tt).

(** The raw connection of the spec's scenario, as [openRawConn] builds it. *)
Definition sample_rawConn : rawConn := mkRawConn 0%nat NewSerializeBuffer "ip6:ip://::".

(** The stream connection of the spec's scenario. *)
Definition sample_netConnConfig : netConnConfig unit string :=
  mkNetConnConfig "tcp" "example:80" 0 "" None.

Definition sample_netConn : netConn unit :=
  mkNetConn (plainConn 0%nat) NewSerializeBuffer "tcp://example:80".

Definition sample_calls : list Call := [CallWrite PING; CallWrite BROKEN; CallWrite PONG].



(** Errors of the collaborators. *)
Definition EPERM : error := errorString "listen ip6:ip ::: socket: operation not permitted".
Definition EOF : error := errorString "EOF".

(** * Observations on traces and errors *)

Section Observations.

Context {TLSConfig ProxyParams : Type}.

(** What a call that honours the [Serialize] contract puts on the wire of
    the raw socket [s]: the bytes of its own packet when it encodes,
    nothing when it does not, nothing for a [Read]. *)
Definition sent_raw (s : fd) (c : Call) : list (Event TLSConfig ProxyParams) :=
  match c with
  | CallWrite packet =>
      match Serialize packet NewSerializeBuffer with
      | (b, None) => [EvWriteTo s (Bytes b) (IP packet)]
      | (_, Some _) => []
      end
  | CallRead _ => []
  end.

(** A call honours the contract when it is a [Read], or the [Write] of a
    packet whose [Serialize] overwrites. *)
Definition honours (c : Call) : Prop :=
  match c with
  | CallWrite packet => overwriting packet
  | CallRead _ => True
  end.

(** The number of [Close] calls on socket [s] in a trace. *)
Definition closes (s : fd) (tr : list (Event TLSConfig ProxyParams)) : nat :=
  length (List.filter (fun ev => match ev with EvClose s' => Nat.eqb s s' | _ => false end) tr).

End Observations.



(** * A caller of the interface *)

Section Callers.

Context {Context TLSConfig ProxyParams : Type}.
Variable E : Env Context TLSConfig ProxyParams.

(** The calls of [cs] made in order through the [Connection] interface,
    as a job holding the connection makes them; a call that panics ends
    the sequence. *)
Fixpoint Connection_calls (cs : list Call) (c : Connection TLSConfig)
    (w : World TLSConfig ProxyParams)
  : outcome (Connection TLSConfig * World TLSConfig ProxyParams) :=
  match cs with
  | [] => Returns (c, w)
  | CallWrite packet :: cs' =>
      match Connection_Write E c packet w with
      | Returns (c', _, w') => Connection_calls cs' c' w'
      | Panics => Panics
      end
  | CallRead b :: cs' =>
      match Connection_Read E c b w with
      | Returns (_, _, _, w') => Connection_calls cs' c w'
      | Panics => Panics
      end
  end.

(** What a call that honours the [Serialize] contract makes the stream
    connection [c] do: one [Write] of the bytes of its own packet when it
    encodes, nothing when it does not, and one [Read] for a [Read]. *)
Definition sent_net (c : Conn TLSConfig) (call : Call) : list (Event TLSConfig ProxyParams) :=
  match call with
  | CallWrite packet =>
      match Serialize packet NewSerializeBuffer with
      | (b, None) => [EvWrite c (Bytes b)]
      | (_, Some _) => []
      end
  | CallRead b => [EvRead c (length b)]
  end.

(** The call is a [Write]. *)
Definition is_Write (call : Call) : bool :=
  match call with
  | CallWrite _ => true
  | CallRead _ => false
  end.

(** The event is a [Write] or a [Read] on the connection [c]. *)
Definition on_Conn (c : Conn TLSConfig) (ev : Event TLSConfig ProxyParams) : Prop :=
  (exists b, ev = EvWrite c b) \/ (exists len, ev = EvRead c len).

End Callers.

(** * The program's start ([main.go])

    [main] reads the flags, builds the logger and either answers a
    one-shot request ([-h], [-version], updater mode) or starts the
    helpers and the job runner.  The zap library, the flag package and the
    packages of the runner are collaborators: zap's answers come from a
    record [Zap], the parsed flags from a record [Flags], and the calls
    [main] makes are listed in order. *)

(** [time.Second], a [time.Duration] in nanoseconds. *)
Definition time_Second : Z := 1000000000.

(** The handlers of [net/http/pprof] that [setUpPprof] mounts. *)
Inductive pprofHandler : Type :=
  | pprof_Index
  | pprof_Cmdline
  | pprof_Profile
  | pprof_Symbol
  | pprof_Trace.

(** The [http.Server] that [setUpPprof] builds: [Handler] is the mux, as
    the list of its patterns. *)
Record Server : Type := mkServer {
  Addr : string;
  Handler : list (string * pprofHandler);
  ReadTimeout : Z;
  WriteTimeout : Z
}.

(** [setUpPprof(logger, pprof, debug)]: the server whose
    [ListenAndServe] is started in a goroutine, [None] when the function
    returns before building one.  The logger only reports the server's
    end. *)
Definition setUpPprof (pprof : string) (debug : bool) : option Server :=
  let serve (pprof : string) :=
    Some (mkServer pprof
            [("/debug/pprof/", pprof_Index);
             ("/debug/pprof/cmdline", pprof_Cmdline);
             ("/debug/pprof/profile", pprof_Profile);
             ("/debug/pprof/symbol", pprof_Symbol);
             ("/debug/pprof/trace", pprof_Trace)]
            time_Second time_Second) in
  if debug && String.eqb pprof "" then serve ":8080"
  else if String.eqb pprof "" then None
  else serve pprof.

(** The byte [','] *)
Definition comma : Ascii.ascii := Ascii.Ascii false false true true false true false false.

(** [strings.Contains(s, ",")] is false *)
Fixpoint comma_free (s : string) : bool :=
  match s with
  | EmptyString => true
  | String a rest => negb (Ascii.eqb a comma) && comma_free rest
  end.

(** [strings.Split(s, ",")] *)
Fixpoint Split_comma (s : string) : list string :=
  match s with
  | EmptyString => [""]
  | String a rest =>
      if Ascii.eqb a comma then "" :: Split_comma rest
      else
        match Split_comma rest with
        | first :: others => String a first :: others
        | [] => [String a ""]
        end
  end.

(** [strings.Join(parts, ",")] *)
Fixpoint Join_comma (parts : list string) : string :=
  match parts with
  | [] => ""
  | [only] => only
  | first :: others => first +:+ "," +:+ Join_comma others
  end.

(** [const simpleLogFormat = "simple"] *)
Definition simpleLogFormat : string := "simple".

(** Unsigned 64-bit subtraction, as on [runtime.MemStats.Alloc]. *)
Definition sub_uint64 (a b : Z) : Z := (a - b) mod 2 ^ 64.

Section Bootstrap.

(** Types of the zap library: [zap.AtomicLevel], [zapcore.TimeEncoder],
    [*zap.Logger], and the fields of [zapcore.EncoderConfig] and
    [zap.Config] that [newZapLogger] leaves alone. *)
Context {AtomicLevel TimeEncoder EncoderRest ConfigRest Logger : Type}.

(** [zapcore.EncoderConfig] *)
Record zapcore_EncoderConfig : Type := mkEncoderConfig {
  TimeKey : string;
  NameKey : string;
  CallerKey : string;
  StacktraceKey : string;
  EncodeTime : TimeEncoder;
  encoderRest : EncoderRest
}.

(** [zap.Config] *)
Record zap_Config : Type := mkConfig {
  Level : AtomicLevel;
  Encoding : string;
  EncoderConfig : zapcore_EncoderConfig;
  configRest : ConfigRest
}.

(** What [newZapLogger] uses of zap. *)
Record Zap : Type := mkZap {
  NewProductionConfig : zap_Config;
  NewDevelopmentConfig : zap_Config;
  RFC3339TimeEncoder : TimeEncoder;
  ParseAtomicLevel : string -> AtomicLevel + error;
  Build : zap_Config -> Logger + error
}.

Variable zap : Zap.

(** The [cfg] of [newZapLogger(debug, logLevel, logFormat)] when it
    reaches [return cfg.Build()]. *)
Definition newZapLogger_cfg (debug : bool) (logLevel logFormat : string) : zap_Config :=
  let cfg := NewProductionConfig zap in
  let cfg := if debug then NewDevelopmentConfig zap else cfg in
  let cfg :=
    if String.eqb logFormat simpleLogFormat then
      (* turn off all output except the message itself and log level *)
      let ec := EncoderConfig cfg in
      let ec := mkEncoderConfig "" "" (CallerKey ec) (StacktraceKey ec)
                  (EncodeTime ec) (encoderRest ec) in
      (* turning these off for debug output would be undesirable *)
      let ec := if negb debug
                then mkEncoderConfig (TimeKey ec) (NameKey ec) "" ""
                       (EncodeTime ec) (encoderRest ec)
                else ec in
      mkConfig (Level cfg) "console" ec (configRest cfg)
    else if negb (String.eqb logFormat "") then
      let ec := EncoderConfig cfg in
      let ec := if String.eqb logFormat "console"
                then mkEncoderConfig (TimeKey ec) (NameKey ec) (CallerKey ec)
                       (StacktraceKey ec) (RFC3339TimeEncoder zap) (encoderRest ec)
                else ec in
      mkConfig (Level cfg) logFormat ec (configRest cfg)
    else cfg in
  match ParseAtomicLevel zap logLevel with
  | inl level => mkConfig level (Encoding cfg) (EncoderConfig cfg) (configRest cfg)
  | inr _ => cfg
  end.

(** [newZapLogger(debug, logLevel, logFormat)] *)
Definition newZapLogger (debug : bool) (logLevel logFormat : string) : Logger + error :=
  Build zap (newZapLogger_cfg debug logLevel logFormat).

(** [metrics.Reporter], as [newReporter] builds it; the console reporter
    writes to [os.Stdout]. *)
Inductive Reporter : Type :=
  | ConsoleReporter (groupTargets : bool)
  | ZapReporter (logger : Logger) (groupTargets : bool).

(** [newReporter(logFormat, groupTargets, logger)] *)
Definition newReporter (logFormat : string) (groupTargets : bool) (logger : Logger)
  : Reporter :=
  if String.eqb logFormat simpleLogFormat then ConsoleReporter groupTargets
  else ZapReporter logger groupTargets.

(** ** [periodicGC] *)

(** [utils.ToMiB], declared outside these files. *)
Variable ToMiB : Z -> Z.

(** One "GC finished" entry of the log: the fields after the duration. *)
Record GCLog : Type := mkGCLog {
  previous_MiB : Z;
  current_MiB : Z;
  recovered_MiB : Z
}.

(** What [periodicGC] does, the readings of the clock apart. *)
Inductive GCStep : Type :=
  | GC_After (period : Z)
  | GC_ReadMemStats
  | GC_runtime_GC
  | GC_LogInfo (entry : GCLog).

(** [periodicGC(enabled, period, log)] over its first rounds: the loop
    never ends by itself, and [allocs] gives, round after round, the
    [m.Alloc] that [runtime.ReadMemStats] reports before and after the
    collection. *)
Fixpoint periodicGC_rounds (period : Z) (allocs : list (Z * Z)) : list GCStep :=
  match allocs with
  | [] => []
  | (memBefore, alloc) :: rest =>
      [GC_After period; GC_ReadMemStats; GC_runtime_GC; GC_ReadMemStats;
       GC_LogInfo (mkGCLog (ToMiB memBefore) (ToMiB alloc)
                     (ToMiB (sub_uint64 memBefore alloc)))]
      ++ periodicGC_rounds period rest
  end.

Definition periodicGC (enabled : bool) (period : Z) (allocs : list (Z * Z)) : list GCStep :=
  if negb enabled then [] else periodicGC_rounds period allocs.

(** The step is a call of [runtime.GC]. *)
Definition is_runtime_GC (step : GCStep) : bool :=
  match step with
  | GC_runtime_GC => true
  | _ => false
  end.

(** The entries that a run of [periodicGC] logs. *)
Definition GC_entries (steps : list GCStep) : list GCLog :=
  flat_map (fun step => match step with GC_LogInfo entry => [entry] | _ => [] end) steps.

(** ** [main] *)

(** The flags and options [main] reads after [flag.Parse()]. *)
Record Flags : Type := mkFlags {
  help : bool;
  version : bool;
  updaterMode : bool;
  debug : bool;
  lessStats : bool;
  periodicGCEnabled : bool;
  prometheusOn : bool;
  logLevel : string;
  logFormat : string;
  pprof : string;
  destinationPath : string;
  prometheusListenAddress : string;
  PathsCSV : string;
  BackupConfig : string;
  RefreshTimeout : Z;
  SkipEncrypted : bool;
  ClientID : string
}.

(** The calls [main] makes, in order.  [process_exits] stands after a
    call that ends the process instead of returning: nothing runs after
    it, the deferred [cancel] included. *)
Inductive Action : Type :=
  | LogInfo_running
  | flag_Usage
  | config_UpdateLocal (destination : string) (paths : list string) (backup : string)
      (skipEncrypted : bool)
  | utils_UpdateRLimit
  | LogWarn_rlimit (err : error)
  | go_periodicGC (enabled : bool) (period : Z)
  | go_WatchUpdates
  | call_setUpPprof (server : option Server)
  | rand_Seed
  | utils_CheckCountryOrFail
  | metrics_InitOrFail (prometheusOn : bool) (listenAddress : string) (clientID : string)
  | Runner_Run (reporter : Reporter)
  | cancel
  | process_exits.

(** The action starts something that outlives the request: a limit
    change, a goroutine, a server, the metrics or the runner. *)
Definition starts_something (a : Action) : bool :=
  match a with
  | LogInfo_running | flag_Usage | config_UpdateLocal _ _ _ _ => false
  | _ => true
  end.

(** [main()], given the parsed flags, the answer of [utils.UpdateRLimit]
    and whether [utils.CheckCountryOrFail] and [metrics.InitOrFail]
    return ([checked], [initialised]) or end the process: the calls it
    makes, in order.  A logger that cannot be built is a panic.
    [CheckCountryOrFail] is an argument of [InitOrFail] and runs before
    it. *)
Definition main (f : Flags) (rlimit : option error) (checked initialised : bool)
  : outcome (list Action) :=
  match newZapLogger (debug f) (logLevel f) (logFormat f) with
  | inr _ => Panics
  | inl logger =>
      let start := [LogInfo_running] in
      if help f then Returns (start ++ [flag_Usage])
      else if version f then Returns start
      else if updaterMode f then
        Returns (start ++
                 [config_UpdateLocal (destinationPath f) (Split_comma (PathsCSV f))
                    (BackupConfig f) (SkipEncrypted f)])
      else
        let warn := match rlimit with
                    | Some err => [LogWarn_rlimit err]
                    | None => []
                    end in
        Returns (start ++ [utils_UpdateRLimit] ++ warn ++
                 [go_periodicGC (periodicGCEnabled f) (RefreshTimeout f);
                  go_WatchUpdates;
                  call_setUpPprof (setUpPprof (pprof f) (debug f));
                  rand_Seed;
                  utils_CheckCountryOrFail] ++
                 if negb checked then [process_exits]
                 else
                   [metrics_InitOrFail (prometheusOn f) (prometheusListenAddress f)
                      (ClientID f)] ++
                   if negb initialised then [process_exits]
                   else [Runner_Run (newReporter (logFormat f) (lessStats f) logger);
                         cancel])
  end.

End Bootstrap.

Arguments zapcore_EncoderConfig : clear implicits.
Arguments zap_Config : clear implicits.
Arguments Zap : clear implicits.
Arguments Reporter : clear implicits.
Arguments Action : clear implicits.

(** ** A sample of zap *)

(** zap's two default configurations, reduced to what [newZapLogger]
    reads; levels and time encoders go by their names. *)
Definition sample_production : zap_Config string string unit unit :=
  mkConfig "info" "json" (mkEncoderConfig "ts" "logger" "caller" "stacktrace" "epoch" tt) tt.

Definition sample_development : zap_Config string string unit unit :=
  mkConfig "debug" "console" (mkEncoderConfig "T" "N" "C" "S" "iso8601" tt) tt.

(** A zap that knows the levels "debug", "info", "warn" and "error" and
    the encodings "json" and "console"; its logger is the configuration it
    was built from. *)
Definition sample_zap : Zap string string unit unit (zap_Config string string unit unit) :=
  mkZap sample_production sample_development "rfc3339"
    (fun text =>
       if existsb (String.eqb text) ["debug"; "info"; "warn"; "error"] then inl text
       else inr (errorString ("unrecognized level: " +:+ text)))
    (fun cfg =>
       if existsb (String.eqb (Encoding cfg)) ["json"; "console"] then inl cfg
       else inr (errorString ("no encoder registered for name " +:+ Encoding cfg))).

(** The flags left at their defaults, with the log format "simple" and
    two configuration paths. *)
Definition sample_flags : Flags :=
  mkFlags false false false false false false false
    "none" "simple" "" "config/config.json" "0.0.0.0:9090"
    "https://a.example/config.json,https://b.example/config.json" "" 60000000000 false "".

(** The same with the updater mode asked for. *)
Definition updater_flags : Flags :=
  mkFlags false false true false false false false
    "none" "simple" "" "config/config.json" "0.0.0.0:9090"
    "https://a.example/config.json,https://b.example/config.json" "" 60000000000 false "".

(** [utils.ToMiB] as a division by 2^20. *)
Definition sample_ToMiB (bytes : Z) : Z := bytes / 1048576.

(** An environment whose decoder gives the stream shape a TLS client
    configuration, and whose dial and handshake answer as given. *)
Definition sample_tls_env (dial handshake : option error) : Env unit unit string :=
  mkEnv sample_Decode_raw (fun _ => inl tls_netConnConfig)
    (fun _ _ _ => None)
    (fun _ _ b _ => (Z.of_nat (length b), None))
    (fun _ _ _ _ _ _ => dial)
    (fun _ _ _ => handshake)
    (fun _ _ b => (Z.of_nat (length b), None))
    (fun _ _ _ => (0, None, []))
    (fun _ _ => None).

(** The stream configuration with a TLS client configuration, with
    another timeout and another proxy in its arguments. *)
Definition tls_netConnConfig' : netConnConfig unit string :=
  mkNetConnConfig "tcp" "example:443" 5000000000 "socks5://proxy.example:1080" (Some tt).

(** * Properties *)

(** ** Strings and error messages *)


Lemma HasPrefix_refl (s : string) : HasPrefix s s = true.
Proof.
  induction s as [|a s IH]; [reflexivity|].
  cbn [HasPrefix]. rewrite Ascii.eqb_refl. exact IH.
Qed.

Lemma contains_unfold (n h : string) :
  contains n h =
  HasPrefix h n ||
  match h with
  | EmptyString => false
  | String _ rest => contains n rest
  end.
Proof. destruct h; reflexivity. Qed.

Lemma contains_refl (s : string) : contains s s = true.
Proof. rewrite contains_unfold, HasPrefix_refl. reflexivity. Qed.

Lemma contains_append_trans (n p s : string) :
  contains n s = true -> contains n (p +:+ s) = true.
Proof.
  intros H. induction p as [|a p IH]; [exact H|].
  change (String a p +:+ s) with (String a (p +:+ s)).
  rewrite contains_unfold, IH. apply orb_true_r.
Qed.

Lemma contains_append_r (p s : string) : contains s (p +:+ s) = true.
Proof. apply contains_append_trans, contains_refl. Qed.

Lemma Unwrap_Errorf_w (prefix : string) (err : error) :
  Unwrap (Errorf_w prefix err) = Some err.
Proof. reflexivity. Qed.


(** ** The two [Write] methods *)

Section Properties.

Context {Context TLSConfig ProxyParams : Type}.
Variable ProxyParams_zero : ProxyParams.
Variable E : Env Context TLSConfig ProxyParams.

Local Abbreviation world := (World TLSConfig ProxyParams).

Lemma rawConn_Write_failure (conn : rawConn) (packet : Packet) (w : world) b err :
  Serialize packet (buf conn) = (b, Some err) ->
  rawConn_Write E conn packet w =
    (mkRawConn (PacketConn conn) b (target conn),
     (0, Some (Errorf_w "error serializing packet: " err)), w).
Proof. intros H. unfold rawConn_Write. rewrite H. reflexivity. Qed.

Lemma rawConn_Write_success (conn : rawConn) (packet : Packet) (w : world) b :
  Serialize packet (buf conn) = (b, None) ->
  rawConn_Write E conn packet w =
    (mkRawConn (PacketConn conn) b (target conn),
     os_WriteTo E (trace w) (PacketConn conn) (Bytes b) (IP packet),
     emit (EvWriteTo (PacketConn conn) (Bytes b) (IP packet)) w).
Proof.
  intros H. unfold rawConn_Write, PacketConn_WriteTo. rewrite H.
  destruct (os_WriteTo E _ _ _ _); reflexivity.
Qed.

Lemma netConn_Write_failure (conn : netConn TLSConfig) (packet : Packet) (w : world) b err :
  Serialize packet (nbuf conn) = (b, Some err) ->
  netConn_Write E conn packet w =
    (mkNetConn (nConn conn) b (ntarget conn),
     (0, Some (Errorf_w "error serializing packet: " err)), w).
Proof. intros H. unfold netConn_Write. rewrite H. reflexivity. Qed.

Lemma netConn_Write_success (conn : netConn TLSConfig) (packet : Packet) (w : world) b :
  Serialize packet (nbuf conn) = (b, None) ->
  netConn_Write E conn packet w =
    (mkNetConn (nConn conn) b (ntarget conn),
     os_Write E (trace w) (nConn conn) (Bytes b),
     emit (EvWrite (nConn conn) (Bytes b)) w).
Proof.
  intros H. unfold netConn_Write, Conn_Write. rewrite H.
  destruct (os_Write E _ _ _); reflexivity.
Qed.

(** A [Write] never touches the socket or the target of its connection. *)
Lemma rawConn_Write_keeps (conn : rawConn) (packet : Packet) (w : world) :
  PacketConn (rawConn_Write E conn packet w).1.1 = PacketConn conn /\
  target (rawConn_Write E conn packet w).1.1 = target conn.
Proof.
  destruct (Serialize packet (buf conn)) as [b [err|]] eqn:H.
  - rewrite (rawConn_Write_failure _ _ _ _ _ H). split; reflexivity.
  - rewrite (rawConn_Write_success _ _ _ _ H). split; reflexivity.
Qed.

Lemma netConn_Write_keeps (conn : netConn TLSConfig) (packet : Packet) (w : world) :
  nConn (netConn_Write E conn packet w).1.1 = nConn conn /\
  ntarget (netConn_Write E conn packet w).1.1 = ntarget conn.
Proof.
  destruct (Serialize packet (nbuf conn)) as [b [err|]] eqn:H.
  - rewrite (netConn_Write_failure _ _ _ _ _ H). split; reflexivity.
  - rewrite (netConn_Write_success _ _ _ _ H). split; reflexivity.
Qed.

Lemma rawConn_calls_keeps (cs : list Call) (conn : rawConn) (w : world) :
  PacketConn (rawConn_calls E cs conn w).1 = PacketConn conn /\
  target (rawConn_calls E cs conn w).1 = target conn.
Proof.
  revert conn w. induction cs as [|[packet|b] cs IH]; intros conn w; simpl.
  - split; reflexivity.
  - pose proof (rawConn_Write_keeps conn packet w) as [Hs Ht].
    destruct (rawConn_Write E conn packet w) as [[conn' r] w']. simpl in Hs, Ht.
    destruct (IH conn' w') as [IHs IHt]. split; congruence.
  - apply IH.
Qed.

Lemma netConn_calls_keeps (cs : list Call) (conn : netConn TLSConfig) (w : world) :
  nConn (netConn_calls E cs conn w).1 = nConn conn /\
  ntarget (netConn_calls E cs conn w).1 = ntarget conn.
Proof.
  revert conn w. induction cs as [|[packet|b] cs IH]; intros conn w; simpl.
  - split; reflexivity.
  - pose proof (netConn_Write_keeps conn packet w) as [Hs Ht].
    destruct (netConn_Write E conn packet w) as [[conn' r] w']. simpl in Hs, Ht.
    destruct (IH conn' w') as [IHs IHt]. split; congruence.
  - unfold netConn_Read, Conn_Read.
    destruct (os_Read E _ _ _) as [[n err] data]. apply IH.
Qed.

(** ** Opening a connection *)

Lemma openRawConn_failure (c : rawConnConfig) (w : world) err :
  os_ListenPacket E (trace w) (Name c) (rawAddress c) = Some err ->
  openRawConn E c w = (None, Some err, emit (EvListenPacket (Name c) (rawAddress c)) w).
Proof. intros H. unfold openRawConn, net_ListenPacket. rewrite H. reflexivity. Qed.

Lemma openRawConn_success (c : rawConnConfig) (w : world) :
  os_ListenPacket E (trace w) (Name c) (rawAddress c) = None ->
  openRawConn E c w =
    (Some (mkRawConn (opened w) NewSerializeBuffer (Name c +:+ "://" +:+ rawAddress c)),
     None,
     mkWorld (trace w ++ [EvListenPacket (Name c) (rawAddress c)]) (S (opened w))).
Proof. intros H. unfold openRawConn, net_ListenPacket. rewrite H. reflexivity. Qed.

Lemma openNetConn_dial_failure ctx (c : netConnConfig TLSConfig ProxyParams) proxy (w : world) err :
  os_Dial E (trace w) ctx (NonNilOrDefault proxy ProxyParams_zero)
    (Protocol c) (Protocol c) (Address c) = Some err ->
  openNetConn ProxyParams_zero E ctx c proxy w =
    (None, Some err,
     emit (EvDial (NonNilOrDefault proxy ProxyParams_zero) (Protocol c) (Protocol c) (Address c)) w).
Proof. intros H. unfold openNetConn, GetProxyFunc. rewrite H. reflexivity. Qed.

Lemma openNetConn_plain ctx (c : netConnConfig TLSConfig ProxyParams) proxy (w : world) :
  os_Dial E (trace w) ctx (NonNilOrDefault proxy ProxyParams_zero)
    (Protocol c) (Protocol c) (Address c) = None ->
  TLSClientConfig c = None ->
  openNetConn ProxyParams_zero E ctx c proxy w =
    (Some (mkNetConn (plainConn (opened w)) NewSerializeBuffer
             (Protocol c +:+ "://" +:+ Address c)),
     None,
     mkWorld (trace w ++ [EvDial (NonNilOrDefault proxy ProxyParams_zero)
                            (Protocol c) (Protocol c) (Address c)])
       (S (opened w))).
Proof.
  intros H Htls. unfold openNetConn, GetProxyFunc. rewrite H. simpl.
  rewrite Htls. reflexivity.
Qed.

Lemma openNetConn_handshake_failure ctx (c : netConnConfig TLSConfig ProxyParams)
    proxy (w : world) cfg err :
  let dial := EvDial (NonNilOrDefault proxy ProxyParams_zero)
                (Protocol c) (Protocol c) (Address c) in
  os_Dial E (trace w) ctx (NonNilOrDefault proxy ProxyParams_zero)
    (Protocol c) (Protocol c) (Address c) = None ->
  TLSClientConfig c = Some cfg ->
  os_Handshake E (trace w ++ [dial]) (opened w) cfg = Some err ->
  openNetConn ProxyParams_zero E ctx c proxy w =
    (None, Some err,
     mkWorld (trace w ++ [dial; EvHandshake (opened w); EvClose (opened w)])
       (S (opened w))).
Proof.
  intros dial H Htls Hhs. unfold openNetConn, GetProxyFunc. rewrite H. simpl.
  rewrite Htls. simpl. fold dial. rewrite Hhs. simpl. unfold emit. simpl.
  rewrite <- !app_assoc. reflexivity.
Qed.

Lemma openNetConn_handshake_success ctx (c : netConnConfig TLSConfig ProxyParams)
    proxy (w : world) cfg :
  let dial := EvDial (NonNilOrDefault proxy ProxyParams_zero)
                (Protocol c) (Protocol c) (Address c) in
  os_Dial E (trace w) ctx (NonNilOrDefault proxy ProxyParams_zero)
    (Protocol c) (Protocol c) (Address c) = None ->
  TLSClientConfig c = Some cfg ->
  os_Handshake E (trace w ++ [dial]) (opened w) cfg = None ->
  openNetConn ProxyParams_zero E ctx c proxy w =
    (Some (mkNetConn (tlsConn (opened w) cfg) NewSerializeBuffer
             (Protocol c +:+ "://" +:+ Address c)),
     None,
     mkWorld (trace w ++ [dial; EvHandshake (opened w)]) (S (opened w))).
Proof.
  intros dial H Htls Hhs. unfold openNetConn, GetProxyFunc. rewrite H. simpl.
  rewrite Htls. simpl. fold dial. rewrite Hhs. simpl. unfold emit. simpl.
  rewrite <- !app_assoc. reflexivity.
Qed.

(** What a successful [openNetConn] returns. *)
Lemma openNetConn_inv ctx (c : netConnConfig TLSConfig ProxyParams) proxy (w w1 : world) conn :
  openNetConn ProxyParams_zero E ctx c proxy w = (Some conn, None, w1) ->
  ntarget conn = Protocol c +:+ "://" +:+ Address c /\
  nbuf conn = NewSerializeBuffer /\
  Conn_socket (nConn conn) = opened w /\
  (TLSClientConfig c = None -> nConn conn = plainConn (opened w)).
Proof.
  destruct (os_Dial E (trace w) ctx (NonNilOrDefault proxy ProxyParams_zero)
              (Protocol c) (Protocol c) (Address c)) as [err|] eqn:Hd.
  - rewrite (openNetConn_dial_failure _ _ _ _ _ Hd). discriminate.
  - destruct (TLSClientConfig c) as [cfg|] eqn:Htls.
    + destruct (os_Handshake E
                  (trace w ++ [EvDial (NonNilOrDefault proxy ProxyParams_zero)
                                 (Protocol c) (Protocol c) (Address c)])
                  (opened w) cfg) as [err|] eqn:Hhs.
      * rewrite (openNetConn_handshake_failure _ _ _ _ _ _ Hd Htls Hhs). discriminate.
      * rewrite (openNetConn_handshake_success _ _ _ _ _ Hd Htls Hhs).
        intros [= <- _]. repeat split; try reflexivity. discriminate.
    + rewrite (openNetConn_plain _ _ _ _ Hd Htls).
      intros [= <- _]. repeat split; reflexivity.
Qed.

(** What a successful [openRawConn] returns. *)
Lemma openRawConn_inv (c : rawConnConfig) (w w1 : world) conn :
  openRawConn E c w = (Some conn, None, w1) ->
  conn = mkRawConn (opened w) NewSerializeBuffer (Name c +:+ "://" +:+ rawAddress c).
Proof.
  destruct (os_ListenPacket E (trace w) (Name c) (rawAddress c)) as [err|] eqn:Hl.
  - rewrite (openRawConn_failure _ _ _ Hl). discriminate.
  - rewrite (openRawConn_success _ _ Hl). intros [= <- _]. reflexivity.
Qed.

(** An error of [openRawConn] or [openNetConn] comes with a [nil] pointer. *)
Lemma openRawConn_error_nil (c : rawConnConfig) (w w1 : world) p err :
  openRawConn E c w = (p, Some err, w1) -> p = None.
Proof.
  destruct (os_ListenPacket E (trace w) (Name c) (rawAddress c)) as [e|] eqn:Hl.
  - rewrite (openRawConn_failure _ _ _ Hl). congruence.
  - rewrite (openRawConn_success _ _ Hl). discriminate.
Qed.

Lemma openNetConn_error_nil ctx (c : netConnConfig TLSConfig ProxyParams) proxy (w w1 : world) p err :
  openNetConn ProxyParams_zero E ctx c proxy w = (p, Some err, w1) -> p = None.
Proof.
  destruct (os_Dial E (trace w) ctx (NonNilOrDefault proxy ProxyParams_zero)
              (Protocol c) (Protocol c) (Address c)) as [e|] eqn:Hd.
  - rewrite (openNetConn_dial_failure _ _ _ _ _ Hd). congruence.
  - destruct (TLSClientConfig c) as [cfg|] eqn:Htls.
    + destruct (os_Handshake E
                  (trace w ++ [EvDial (NonNilOrDefault proxy ProxyParams_zero)
                                 (Protocol c) (Protocol c) (Address c)])
                  (opened w) cfg) as [e|] eqn:Hhs.
      * rewrite (openNetConn_handshake_failure _ _ _ _ _ _ Hd Htls Hhs). congruence.
      * rewrite (openNetConn_handshake_success _ _ _ _ _ Hd Htls Hhs). discriminate.
    + rewrite (openNetConn_plain _ _ _ _ Hd Htls). discriminate.
Qed.

(** [openNetConn] never returns a nil pointer with a nil error. *)
Lemma openNetConn_not_nil_nil ctx (c : netConnConfig TLSConfig ProxyParams) proxy (w w1 : world) :
  openNetConn ProxyParams_zero E ctx c proxy w <> (None, None, w1).
Proof.
  destruct (os_Dial E (trace w) ctx (NonNilOrDefault proxy ProxyParams_zero)
              (Protocol c) (Protocol c) (Address c)) as [e|] eqn:Hd.
  - rewrite (openNetConn_dial_failure _ _ _ _ _ Hd). discriminate.
  - destruct (TLSClientConfig c) as [cfg|] eqn:Htls.
    + destruct (os_Handshake E
                  (trace w ++ [EvDial (NonNilOrDefault proxy ProxyParams_zero)
                                 (Protocol c) (Protocol c) (Address c)])
                  (opened w) cfg) as [e|] eqn:Hhs.
      * rewrite (openNetConn_handshake_failure _ _ _ _ _ _ Hd Htls Hhs). discriminate.
      * rewrite (openNetConn_handshake_success _ _ _ _ _ Hd Htls Hhs). discriminate.
    + rewrite (openNetConn_plain _ _ _ _ Hd Htls). discriminate.
Qed.

(** The three branches of [OpenConnection]. *)
Lemma OpenConnection_raw ctx (c : ConnectionConfig ProxyParams) (w : world) :
  Type_ c = "raw" ->
  OpenConnection ProxyParams_zero E ctx c w =
    match Decode_rawConnConfig E (Args c) with
    | inr err => (Connection_nil, Some (Errorf_w "error decoding connection config: " err), w)
    | inl cfg => (Connection_raw (openRawConn E cfg w).1.1, (openRawConn E cfg w).1.2,
                  (openRawConn E cfg w).2)
    end.
Proof.
  intros H. unfold OpenConnection. rewrite H. simpl.
  destruct (Decode_rawConnConfig E (Args c)) as [cfg|err]; [|reflexivity].
  destruct (openRawConn E cfg w) as [[p err] w']. reflexivity.
Qed.

Lemma OpenConnection_net ctx (c : ConnectionConfig ProxyParams) (w : world) :
  Type_ c = "net" ->
  OpenConnection ProxyParams_zero E ctx c w =
    match Decode_netConnConfig E (Args c) with
    | inr err => (Connection_nil, Some (Errorf_w "error decoding connection config: " err), w)
    | inl cfg =>
        (Connection_net (openNetConn ProxyParams_zero E ctx cfg (cProxy c) w).1.1,
         (openNetConn ProxyParams_zero E ctx cfg (cProxy c) w).1.2,
         (openNetConn ProxyParams_zero E ctx cfg (cProxy c) w).2)
    end.
Proof.
  intros H. unfold OpenConnection. rewrite H. simpl.
  destruct (Decode_netConnConfig E (Args c)) as [cfg|err]; [|reflexivity].
  destruct (openNetConn ProxyParams_zero E ctx cfg (cProxy c) w) as [[p err] w']. reflexivity.
Qed.

Lemma OpenConnection_default ctx (c : ConnectionConfig ProxyParams) (w : world) :
  Type_ c <> "raw" -> Type_ c <> "net" ->
  OpenConnection ProxyParams_zero E ctx c w =
    (Connection_nil, Some (Errorf_v "unknown connection type: " (Type_ c)), w).
Proof.
  intros Hr Hn. unfold OpenConnection.
  destruct (String.eqb_spec (Type_ c) "raw"); [contradiction|].
  destruct (String.eqb_spec (Type_ c) "net"); [contradiction|].
  reflexivity.
Qed.

(** The recognised tags, by cases. *)
Lemma Type_cases (c : ConnectionConfig ProxyParams) :
  Type_ c = "raw" \/ Type_ c = "net" \/ (Type_ c <> "raw" /\ Type_ c <> "net").
Proof.
  destruct (String.eqb_spec (Type_ c) "raw"); [left; assumption|].
  destruct (String.eqb_spec (Type_ c) "net"); [right; left; assumption|].
  right; right; split; assumption.
Qed.

(** ** The claims *)

(** C2. [Read] on a raw connection returns (0, nil), zero bytes and no
    error, for every buffer argument and after any sequence of earlier
    calls; it makes no call to the socket and leaves the buffer argument
    as it was.  The receiver is not consulted, so this holds for every
    [*rawConn] the interface may hold. *)
Theorem rawConn_Read_zero :
  forall (cs : list Call) (conn : rawConn) (w : world) (b : list byte) (p : option rawConn),
    rawConn_Read (Some (rawConn_calls E cs conn w).1) b (rawConn_calls E cs conn w).2
      = (0, None, (rawConn_calls E cs conn w).2) /\
    rawConn_Read p b w = (0, None, w) /\
    Connection_Read E (Connection_raw p) b w = Returns (0, None, b, w).
Proof. intros. repeat split. Qed.

(** C3. When [Type] is neither "raw" nor "net", [OpenConnection] returns
    the nil [Connection] together with the error "unknown connection
    type: " followed by the value of [Type]; the message contains that
    value, no collaborator is called, and no outcome has a nil error or a
    live transport. *)
Theorem OpenConnection_unknown_type :
  forall ctx (c : ConnectionConfig ProxyParams) (w : world),
    Type_ c <> "raw" -> Type_ c <> "net" ->
    OpenConnection ProxyParams_zero E ctx c w =
      (Connection_nil, Some (errorString ("unknown connection type: " +:+ Type_ c)), w) /\
    contains (Type_ c)
      (Error (errorString ("unknown connection type: " +:+ Type_ c))) = true /\
    (OpenConnection ProxyParams_zero E ctx c w).1.2 <> None /\
    Connection_live (OpenConnection ProxyParams_zero E ctx c w).1.1 = false.
Proof.
  intros ctx c w Hr Hn. rewrite (OpenConnection_default _ _ _ Hr Hn).
  split; [reflexivity|]. split; [apply contains_append_r|].
  split; [discriminate | reflexivity].
Qed.

(** C4. On both transports, when [packet.Serialize] returns an error,
    [Write] returns the count 0 and that error wrapped by
    [fmt.Errorf("error serializing packet: %w", err)], calls nothing of the
    socket (the world is unchanged), and leaves the socket and the target
    of the connection as they were, so that the next [Write] of a packet
    that serialises reaches the same socket. *)
Theorem Write_serialize_error :
  forall (packet : Packet) (err : error) (rc : rawConn) (nc : netConn TLSConfig)
         (w : world) (b1 b2 : SerializeBuffer),
    Serialize packet (buf rc) = (b1, Some err) ->
    Serialize packet (nbuf nc) = (b2, Some err) ->
    let wrapped := wrapError ("error serializing packet: " +:+ Error err) err in
    Unwrap wrapped = Some err /\
    (rawConn_Write E rc packet w = (mkRawConn (PacketConn rc) b1 (target rc), (0, Some wrapped), w) /\
     forall (q : Packet) (b : SerializeBuffer) (w' : world),
       Serialize q b1 = (b, None) ->
       (rawConn_Write E (rawConn_Write E rc packet w).1.1 q w').2 =
         emit (EvWriteTo (PacketConn rc) (Bytes b) (IP q)) w') /\
    (netConn_Write E nc packet w = (mkNetConn (nConn nc) b2 (ntarget nc), (0, Some wrapped), w) /\
     forall (q : Packet) (b : SerializeBuffer) (w' : world),
       Serialize q b2 = (b, None) ->
       (netConn_Write E (netConn_Write E nc packet w).1.1 q w').2 =
         emit (EvWrite (nConn nc) (Bytes b)) w').
Proof.
  intros packet err rc nc w b1 b2 H1 H2 wrapped.
  split; [reflexivity|]. split.
  - rewrite (rawConn_Write_failure _ _ _ _ _ H1). split; [reflexivity|].
    intros q b w' Hq. simpl.
    rewrite (rawConn_Write_success (mkRawConn (PacketConn rc) b1 (target rc)) q w' b Hq).
    reflexivity.
  - rewrite (netConn_Write_failure _ _ _ _ _ H2). split; [reflexivity|].
    intros q b w' Hq. simpl.
    rewrite (netConn_Write_success (mkNetConn (nConn nc) b2 (ntarget nc)) q w' b Hq).
    reflexivity.
Qed.

(** C6. On a stream connection opened without a TLS configuration, after
    any earlier calls, the [Write] of a packet whose [Serialize] succeeds
    makes exactly one call, [Conn.Write], on the dialed socket, with
    exactly the bytes [Serialize] left in the buffer, and returns what
    that call returns. *)
Theorem netConn_Write_bytes :
  forall ctx (c : netConnConfig TLSConfig ProxyParams) proxy (w w1 : world)
         (conn : netConn TLSConfig) (cs : list Call) (packet : Packet) (b : SerializeBuffer),
    TLSClientConfig c = None ->
    openNetConn ProxyParams_zero E ctx c proxy w = (Some conn, None, w1) ->
    Serialize packet (nbuf (netConn_calls E cs conn w1).1) = (b, None) ->
    let conn' := (netConn_calls E cs conn w1).1 in
    let w' := (netConn_calls E cs conn w1).2 in
    netConn_Write E conn' packet w' =
      (mkNetConn (plainConn (opened w)) b (ntarget conn),
       os_Write E (trace w') (plainConn (opened w)) (Bytes b),
       mkWorld (trace w' ++ [EvWrite (plainConn (opened w)) (Bytes b)]) (opened w')).
Proof.
  intros ctx c proxy w w1 conn cs packet b Htls Hopen Hser conn' w'.
  destruct (openNetConn_inv _ _ _ _ _ _ Hopen) as (_ & _ & _ & Hplain).
  destruct (netConn_calls_keeps cs conn w1) as [Hc Ht].
  rewrite (netConn_Write_success conn' packet w' b Hser).
  unfold conn'. rewrite Hc, Ht, (Hplain Htls). reflexivity.
Qed.

(** C7. A connection that [OpenConnection] returns with a nil error is a
    live [rawConn] or [netConn] whose [Target()] is the configured
    [Name + "://" + Address] (raw) or [Protocol + "://" + Address]
    (stream), set when the connection is built; no sequence of later
    [Write] and [Read] calls, whatever the packets and their
    destinations, changes it. *)
Theorem Target_fixed :
  forall ctx (c : ConnectionConfig ProxyParams) (w w1 : world) (conn : Connection TLSConfig),
    OpenConnection ProxyParams_zero E ctx c w = (conn, None, w1) ->
    (exists cfg rc,
        Type_ c = "raw" /\ Decode_rawConnConfig E (Args c) = inl cfg /\
        conn = Connection_raw (Some rc) /\
        Connection_Target conn = Returns (Name cfg +:+ "://" +:+ rawAddress cfg) /\
        forall (cs : list Call) (w2 : world),
          rawConn_Target (rawConn_calls E cs rc w2).1 = Name cfg +:+ "://" +:+ rawAddress cfg) \/
    (exists cfg nc,
        Type_ c = "net" /\ Decode_netConnConfig E (Args c) = inl cfg /\
        conn = Connection_net (Some nc) /\
        Connection_Target conn = Returns (Protocol cfg +:+ "://" +:+ Address cfg) /\
        forall (cs : list Call) (w2 : world),
          netConn_Target (netConn_calls E cs nc w2).1 = Protocol cfg +:+ "://" +:+ Address cfg).
Proof.
  intros ctx c w w1 conn Hopen.
  destruct (Type_cases c) as [Hr | [Hn | [Hr Hn]]].
  - left. rewrite (OpenConnection_raw _ _ _ Hr) in Hopen.
    destruct (Decode_rawConnConfig E (Args c)) as [cfg|err] eqn:Hdec; [|discriminate].
    destruct (openRawConn E cfg w) as [[p e] w'] eqn:Hraw. simpl in Hopen.
    injection Hopen as <- -> ->.
    destruct p as [rc|].
    + pose proof (openRawConn_inv _ _ _ _ Hraw) as ->.
      eexists cfg, _. split; [exact Hr|]. do 3 (split; [reflexivity|]).
      intros cs w2. unfold rawConn_Target.
      destruct (rawConn_calls_keeps cs
                  (mkRawConn (opened w) NewSerializeBuffer (Name cfg +:+ "://" +:+ rawAddress cfg))
                  w2) as [_ Ht].
      exact Ht.
    + exfalso. revert Hraw.
      destruct (os_ListenPacket E (trace w) (Name cfg) (rawAddress cfg)) as [err|] eqn:Hl.
      * rewrite (openRawConn_failure _ _ _ Hl). discriminate.
      * rewrite (openRawConn_success _ _ Hl). discriminate.
  - right. rewrite (OpenConnection_net _ _ _ Hn) in Hopen.
    destruct (Decode_netConnConfig E (Args c)) as [cfg|err] eqn:Hdec; [|discriminate].
    destruct (openNetConn ProxyParams_zero E ctx cfg (cProxy c) w) as [[p e] w'] eqn:Hnet.
    simpl in Hopen. injection Hopen as <- -> ->.
    destruct p as [nc|].
    + destruct (openNetConn_inv _ _ _ _ _ _ Hnet) as (Ht & _).
      exists cfg, nc. split; [exact Hn|]. do 2 (split; [reflexivity|]). split.
      * simpl. unfold netConn_Target. rewrite Ht. reflexivity.
      * intros cs w2. unfold netConn_Target.
        destruct (netConn_calls_keeps cs nc w2) as [_ Hk]. rewrite Hk. exact Ht.
    + exfalso. exact (openNetConn_not_nil_nil _ _ _ _ _ Hnet).
  - rewrite (OpenConnection_default _ _ _ Hr Hn) in Hopen. discriminate.
Qed.

(** One [Write] of a packet that honours the contract. *)
Lemma rawConn_Write_overwriting (conn : rawConn) (packet : Packet) (w : world) :
  overwriting packet ->
  trace (rawConn_Write E conn packet w).2 =
    trace w ++ sent_raw (PacketConn conn) (CallWrite packet).
Proof.
  intros Hov. unfold sent_raw.
  destruct (Serialize packet (buf conn)) as [b [err|]] eqn:H.
  - rewrite (rawConn_Write_failure _ _ _ _ _ H).
    rewrite <- (Hov (buf conn)), H. simpl. symmetry. apply app_nil_r.
  - rewrite (rawConn_Write_success _ _ _ _ H).
    rewrite <- (Hov (buf conn)), H. reflexivity.
Qed.

(** C1. On a raw connection, for every sequence of calls whose packets
    honour the [Serialize] contract (the buffer is overwritten, not
    appended to), the socket receives, call after call, exactly the bytes
    of the packet being written, addressed to that packet's [IP]: one
    [WriteTo] for each packet that serialises, none for a packet that
    does not.  What is sent for a packet does not depend on the packets
    written before it, whether they serialised or failed. *)
Theorem rawConn_Write_buffer_reuse :
  forall (cs : list Call) (conn : rawConn) (w : world),
    Forall honours cs ->
    trace (rawConn_calls E cs conn w).2 =
      trace w ++ flat_map (sent_raw (PacketConn conn)) cs.
Proof.
  induction cs as [|[packet|b] cs IH]; intros conn w Hall.
  - simpl. symmetry. apply app_nil_r.
  - inversion Hall as [|? ? Hov Hrest]; subst.
    cbn [rawConn_calls flat_map].
    pose proof (rawConn_Write_overwriting conn packet w Hov) as Hw.
    destruct (rawConn_Write_keeps conn packet w) as [Hs _].
    destruct (rawConn_Write E conn packet w) as [[conn' r] w'].
    simpl in Hw, Hs. rewrite (IH conn' w' Hrest), Hw, Hs.
    rewrite <- app_assoc. reflexivity.
  - inversion Hall as [|? ? _ Hrest]; subst.
    cbn [rawConn_calls flat_map sent_raw]. simpl. apply (IH conn w Hrest).
Qed.

(** C10. A stream configuration whose [Proxy] is nil opens exactly as the
    same configuration with [&utils.ProxyParams{}]: the dial function is
    resolved from the zero proxy parameters, and when that dial succeeds
    (no TLS configured) the connection is returned with a nil error. *)
Theorem openNetConn_nil_proxy :
  forall ctx (c : ConnectionConfig ProxyParams) (w : world),
    Type_ c = "net" -> cProxy c = None ->
    OpenConnection ProxyParams_zero E ctx c w =
      OpenConnection ProxyParams_zero E ctx
        (mkConnectionConfig (Type_ c) (Args c) (Some ProxyParams_zero)) w /\
    (forall cfg : netConnConfig TLSConfig ProxyParams,
     Decode_netConnConfig E (Args c) = inl cfg ->
     TLSClientConfig cfg = None ->
     os_Dial E (trace w) ctx ProxyParams_zero (Protocol cfg) (Protocol cfg) (Address cfg) = None ->
     OpenConnection ProxyParams_zero E ctx c w =
       (Connection_net
          (Some (mkNetConn (plainConn (opened w)) NewSerializeBuffer
                   (Protocol cfg +:+ "://" +:+ Address cfg))),
        None,
        mkWorld (trace w ++ [EvDial ProxyParams_zero (Protocol cfg) (Protocol cfg) (Address cfg)])
          (S (opened w)))).
Proof.
  intros ctx c w Hn Hp. split.
  - rewrite (OpenConnection_net _ _ _ Hn), (OpenConnection_net ctx (mkConnectionConfig _ _ _) w Hn).
    simpl. rewrite Hp. reflexivity.
  - intros cfg Hdec Htls Hd. rewrite (OpenConnection_net _ _ _ Hn), Hdec, Hp.
    rewrite (openNetConn_plain ctx cfg None w Hd Htls). reflexivity.
Qed.

(** C5 (as the code has it). When a TLS client configuration is given,
    the dial succeeds and the handshake fails, [openNetConn] makes, after
    the dial and the handshake, exactly one [Close] call on the dialed
    socket, returns the nil pointer (no [netConn] is built), and returns
    the handshake error as the TLS library gave it, with nothing added:
    the same way it returns a dial error.  [OpenConnection] passes the
    error on unchanged; the interface value it returns holds no
    connection. *)
Theorem openNetConn_handshake_failure_closes :
  forall ctx (c : netConnConfig TLSConfig ProxyParams) proxy (w : world) cfg err,
    let params := NonNilOrDefault proxy ProxyParams_zero in
    let dial := EvDial params (Protocol c) (Protocol c) (Address c) in
    os_Dial E (trace w) ctx params (Protocol c) (Protocol c) (Address c) = None ->
    TLSClientConfig c = Some cfg ->
    os_Handshake E (trace w ++ [dial]) (opened w) cfg = Some err ->
    let r := openNetConn ProxyParams_zero E ctx c proxy w in
    r.1 = (None, Some err) /\
    trace r.2 = trace w ++ [dial; EvHandshake (opened w); EvClose (opened w)] /\
    closes (opened w) (trace r.2) = S (closes (opened w) (trace w)) /\
    (forall cc : ConnectionConfig ProxyParams,
       Type_ cc = "net" -> Decode_netConnConfig E (Args cc) = inl c -> cProxy cc = proxy ->
       OpenConnection ProxyParams_zero E ctx cc w = (Connection_net None, Some err, r.2) /\
       Connection_live (OpenConnection ProxyParams_zero E ctx cc w).1.1 = false) /\
    forall ctx' (c' : netConnConfig TLSConfig ProxyParams) proxy' (w' : world) err',
      os_Dial E (trace w') ctx' (NonNilOrDefault proxy' ProxyParams_zero)
        (Protocol c') (Protocol c') (Address c') = Some err' ->
      (openNetConn ProxyParams_zero E ctx' c' proxy' w').1 = (None, Some err').
Proof.
  intros ctx c proxy w cfg err params dial Hd Htls Hhs r.
  assert (Hr : r = (None, Some err,
                    mkWorld (trace w ++ [dial; EvHandshake (opened w); EvClose (opened w)])
                      (S (opened w)))).
  { unfold r. apply (openNetConn_handshake_failure _ _ _ _ _ _ Hd Htls Hhs). }
  rewrite Hr. cbn [fst snd trace].
  split; [reflexivity|]. split; [reflexivity|]. split.
  - unfold closes. rewrite List.filter_app, length_app. simpl.
    rewrite Nat.eqb_refl. simpl. lia.
  - split.
    + intros cc Hn Hdec Hp.
      rewrite (OpenConnection_net _ _ _ Hn), Hdec, Hp. fold r. rewrite Hr.
      split; reflexivity.
    + intros ctx' c' proxy' w' err' Hd'.
      rewrite (openNetConn_dial_failure _ _ _ _ _ Hd'). reflexivity.
Qed.


(** An error of [OpenConnection] never comes with a live connection. *)
Lemma OpenConnection_error_not_live ctx (c : ConnectionConfig ProxyParams) (w w1 : world)
    (conn : Connection TLSConfig) err :
  OpenConnection ProxyParams_zero E ctx c w = (conn, Some err, w1) ->
  Connection_live conn = false.
Proof.
  intros Hopen. destruct (Type_cases c) as [Hr | [Hn | [Hr Hn]]].
  - rewrite (OpenConnection_raw _ _ _ Hr) in Hopen.
    destruct (Decode_rawConnConfig E (Args c)) as [cfg|e]; [|injection Hopen as <- _ _; reflexivity].
    destruct (openRawConn E cfg w) as [[p e] w'] eqn:Hraw. simpl in Hopen.
    injection Hopen as <- -> ->. rewrite (openRawConn_error_nil _ _ _ _ _ Hraw). reflexivity.
  - rewrite (OpenConnection_net _ _ _ Hn) in Hopen.
    destruct (Decode_netConnConfig E (Args c)) as [cfg|e]; [|injection Hopen as <- _ _; reflexivity].
    destruct (openNetConn ProxyParams_zero E ctx cfg (cProxy c) w) as [[p e] w'] eqn:Hnet.
    simpl in Hopen. injection Hopen as <- -> ->.
    rewrite (openNetConn_error_nil _ _ _ _ _ _ _ Hnet). reflexivity.
  - rewrite (OpenConnection_default _ _ _ Hr Hn) in Hopen.
    injection Hopen as <- _ _. reflexivity.
Qed.

(** C9 (what the code does where the claim fails). When [net.ListenPacket]
    fails, [openRawConn] returns a nil [*rawConn] and [OpenConnection]
    returns it as a [Connection]: an interface value of dynamic type
    [*rawConn], which is not the nil interface ([conn == nil] is false),
    together with the non-nil error.  Its [Read] even returns (0, nil);
    its [Target] panics. *)
Theorem OpenConnection_listen_failure_not_nil :
  forall ctx (c : ConnectionConfig ProxyParams) (w : world) (cfg : rawConnConfig) (err : error),
    Type_ c = "raw" ->
    Decode_rawConnConfig E (Args c) = inl cfg ->
    os_ListenPacket E (trace w) (Name cfg) (rawAddress cfg) = Some err ->
    let r := OpenConnection ProxyParams_zero E ctx c w in
    r.1 = (Connection_raw None, Some err) /\
    Connection_is_nil r.1.1 = false /\
    Connection_Target r.1.1 = Panics /\
    forall b : list byte, Connection_Read E r.1.1 b r.2 = Returns (0, None, b, r.2).
Proof.
  intros ctx c w cfg err Ht Hdec Hl r. unfold r.
  rewrite (OpenConnection_raw _ _ _ Ht), Hdec, (openRawConn_failure _ _ _ Hl).
  repeat split.
Qed.

End Properties.

(** ** Decode failures of the modelled decoder *)




Section DecodeFailures.

Context {Context TLSConfig ProxyParams : Type}.
Variable ProxyParams_zero : ProxyParams.
Variable E : Env Context TLSConfig ProxyParams.


End DecodeFailures.

(** * The operations at work *)

Lemma encoded_overwriting (wire : list byte) (res : option error) (ip : list byte) :
  overwriting (encoded wire res ip).
Proof. intros b. reflexivity. Qed.

Lemma sample_calls_honour : Forall honours sample_calls.
Proof. repeat constructor. Qed.

(** Scenario: [{Type:"raw", Args:{Name:"ip6:ip", Address:"::"}}] opens,
    and its target is "ip6:ip://::". *)
Example OpenConnection_raw_scenario :
  OpenConnection "" (sample_env None None None) tt raw_config world0 =
    (Connection_raw (Some sample_rawConn), None, mkWorld [EvListenPacket "ip6:ip" "::"] 1).
Proof. vm_compute. reflexivity. Qed.

(** Scenario: the stream configuration opens, and a packet whose
    [Serialize] leaves "PING" reaches the peer as these four bytes. *)
Example OpenConnection_net_scenario :
  OpenConnection "" (sample_env None None None) tt net_config world0 =
    (Connection_net (Some sample_netConn), None, mkWorld [EvDial "" "tcp" "tcp" "example:80"] 1) /\
  netConn_Write (sample_env None None None) sample_netConn PING (mkWorld [] 1) =
    (mkNetConn (plainConn 0%nat) (mkSerializeBuffer (String.list_byte_of_string "PING"))
       "tcp://example:80",
     (4, None),
     mkWorld [EvWrite (plainConn 0%nat) (String.list_byte_of_string "PING")] 1).
Proof. split; vm_compute; reflexivity. Qed.

(** Three writes, the second of which fails to serialise: the socket
    receives "PING" and then "PONG", nothing else. *)
Example rawConn_calls_scenario :
  trace (rawConn_calls (sample_env None None None) sample_calls sample_rawConn world0).2 =
    [EvWriteTo 0%nat (String.list_byte_of_string "PING") (IP PING);
     EvWriteTo 0%nat (String.list_byte_of_string "PONG") (IP PONG)].
Proof. reflexivity. Qed.

(** The contract is needed: [Write] does not reset the buffer itself, so a
    [Serialize] that appends sends the bytes of the packet before again. *)
Example appending_sends_stale_bytes :
  let ip := [x7f; x00; x00; x01]%byte in
  trace (rawConn_calls (sample_env None None None)
           [CallWrite (appending (String.list_byte_of_string "PING") ip);
            CallWrite (appending (String.list_byte_of_string "PONG") ip)]
           sample_rawConn world0).2 =
    [EvWriteTo 0%nat (String.list_byte_of_string "PING") ip;
     EvWriteTo 0%nat (String.list_byte_of_string "PINGPONG") ip].
Proof. reflexivity. Qed.

(** ** The claims on the samples *)

Lemma rawConn_Write_buffer_reuse_witness :
  Forall honours sample_calls /\
  trace (rawConn_calls (sample_env None None None) sample_calls sample_rawConn world0).2 =
    trace world0 ++ flat_map (sent_raw (PacketConn sample_rawConn)) sample_calls.
Proof.
  split; [exact sample_calls_honour|].
  apply (rawConn_Write_buffer_reuse (sample_env None None None) sample_calls sample_rawConn world0).
  exact sample_calls_honour.
Defined.

Lemma OpenConnection_unknown_type_witness :
  OpenConnection "" (sample_env None None None) tt udp_config world0 =
    (Connection_nil, Some (errorString "unknown connection type: udp"), world0) /\
  contains "udp" "unknown connection type: udp" = true.
Proof.
  destruct (OpenConnection_unknown_type "" (sample_env None None None) tt udp_config world0)
    as (H1 & H2 & _); [discriminate | discriminate |].
  split; [exact H1 | exact H2].
Defined.

Lemma Write_serialize_error_witness :
  let wrapped := wrapError "error serializing packet: invalid layer" (errorString "invalid layer") in
  let left := mkSerializeBuffer (String.list_byte_of_string "PI") in
  rawConn_Write (sample_env None None None) sample_rawConn BROKEN world0 =
    (mkRawConn 0%nat left "ip6:ip://::", (0, Some wrapped), world0) /\
  netConn_Write (sample_env None None None) sample_netConn BROKEN world0 =
    (mkNetConn (plainConn 0%nat) left "tcp://example:80", (0, Some wrapped), world0).
Proof.
  intros wrapped left.
  destruct (Write_serialize_error (sample_env None None None) BROKEN
              (errorString "invalid layer") sample_rawConn sample_netConn world0 left left
              eq_refl eq_refl) as (_ & (H1 & _) & (H2 & _)).
  split; [exact H1 | exact H2].
Defined.

Lemma netConn_Write_bytes_witness :
  let E := sample_env None None None in
  let calls := [CallWrite PONG; CallRead []] in
  let w1 := mkWorld [EvDial "" "tcp" "tcp" "example:80"] 1 in
  netConn_Write E (netConn_calls E calls sample_netConn w1).1 PING
      (netConn_calls E calls sample_netConn w1).2 =
    (mkNetConn (plainConn 0%nat) (mkSerializeBuffer (String.list_byte_of_string "PING"))
       "tcp://example:80",
     (4, None),
     mkWorld [EvDial "" "tcp" "tcp" "example:80";
              EvWrite (plainConn 0%nat) (String.list_byte_of_string "PONG");
              EvRead (plainConn 0%nat) 0;
              EvWrite (plainConn 0%nat) (String.list_byte_of_string "PING")] 1).
Proof.
  intros E calls w1.
  exact (netConn_Write_bytes "" E tt sample_netConnConfig None world0 w1 sample_netConn
           calls PING (mkSerializeBuffer (String.list_byte_of_string "PING"))
           eq_refl eq_refl eq_refl).
Defined.

Lemma Target_fixed_witness :
  Connection_Target (Connection_raw (TLSConfig:=unit) (Some sample_rawConn)) = Returns "ip6:ip://::" /\
  rawConn_Target
    (rawConn_calls (sample_env None None None) sample_calls sample_rawConn world0).1 =
    "ip6:ip://::".
Proof.
  destruct (Target_fixed "" (sample_env None None None) tt raw_config world0 _ _
              OpenConnection_raw_scenario)
    as [(cfg & rc & _ & Hdec & Hconn & Htarget & Hcalls) | (cfg & nc & Hn & _)];
    [| discriminate Hn].
  injection Hconn as <-.
  assert (Hcfg : cfg = mkRawConnConfig "ip6:ip" "::").
  { vm_compute in Hdec. injection Hdec as <-. reflexivity. }
  subst cfg. split; [exact Htarget | exact (Hcalls sample_calls world0)].
Defined.

Lemma openNetConn_nil_proxy_witness :
  let E := sample_env None None None in
  OpenConnection "" E tt net_config world0 =
    OpenConnection "" E tt (mkConnectionConfig "net" (Args net_config) (Some "")) world0 /\
  OpenConnection "" E tt net_config world0 =
    (Connection_net (Some sample_netConn), None, mkWorld [EvDial "" "tcp" "tcp" "example:80"] 1).
Proof.
  intros E.
  assert (Hdec : Decode_netConnConfig E (Args net_config) = inl sample_netConnConfig)
    by (vm_compute; reflexivity).
  destruct (openNetConn_nil_proxy "" E tt net_config world0 eq_refl eq_refl) as [H1 H2].
  split; [exact H1 | exact (H2 sample_netConnConfig Hdec eq_refl eq_refl)].
Defined.

Lemma openNetConn_handshake_failure_closes_witness :
  let E := sample_env None None (Some EOF) in
  openNetConn "" E tt tls_netConnConfig None world0 =
    (None, Some EOF,
     mkWorld [EvDial "" "tcp" "tcp" "example:443"; EvHandshake 0%nat; EvClose 0%nat] 1) /\
  closes 0%nat (trace (openNetConn "" E tt tls_netConnConfig None world0).2) = 1%nat.
Proof.
  intros E.
  destruct (openNetConn_handshake_failure_closes "" E tt tls_netConnConfig None world0 tt EOF
              eq_refl eq_refl eq_refl) as (_ & _ & H & _).
  split; [reflexivity | exact H].
Defined.


Lemma OpenConnection_listen_failure_not_nil_witness :
  let r := OpenConnection "" (sample_env (Some EPERM) None None) tt raw_config world0 in
  r = (Connection_raw None, Some EPERM, mkWorld [EvListenPacket "ip6:ip" "::"] 0) /\
  Connection_is_nil r.1.1 = false.
Proof.
  intros r.
  assert (Hdec : Decode_rawConnConfig (sample_env (Some EPERM) None None) (Args raw_config)
                 = inl (mkRawConnConfig "ip6:ip" "::")) by (vm_compute; reflexivity).
  destruct (OpenConnection_listen_failure_not_nil "" (sample_env (Some EPERM) None None) tt
              raw_config world0 _ EPERM eq_refl Hdec eq_refl) as (_ & H & _).
  split; [vm_compute; reflexivity | exact H].
Defined.

(** ** Where the code departs from the spec's words *)

(** C5, the last part of the claim.  With a TLS configuration, a handshake
    that fails with an error and a dial that fails with the same error
    make [openNetConn] return the same pair: the handshake error carries
    no mark that tells it from a dial error. *)
Lemma handshake_error_as_dial_error :
  os_Handshake (sample_env None None (Some EOF)) [EvDial "" "tcp" "tcp" "example:443"] 0%nat tt
    = Some EOF /\
  os_Dial (sample_env None (Some EOF) None) [] tt "" "tcp" "tcp" "example:443" = Some EOF /\
  (openNetConn "" (sample_env None None (Some EOF)) tt tls_netConnConfig None world0).1 =
    (None, Some EOF) /\
  (openNetConn "" (sample_env None (Some EOF) None) tt tls_netConnConfig None world0).1 =
    (None, Some EOF).
Proof. repeat split. Qed.

(** * More on the life of a connection *)

Section Lifecycle.

Context {Context TLSConfig ProxyParams : Type}.
Variable ProxyParams_zero : ProxyParams.
Variable E : Env Context TLSConfig ProxyParams.

Local Abbreviation world := (World TLSConfig ProxyParams).

Lemma closes_app (s : fd) (a b : list (Event TLSConfig ProxyParams)) :
  closes s (a ++ b) = (closes s a + closes s b)%nat.
Proof. unfold closes. rewrite List.filter_app, length_app. reflexivity. Qed.

Lemma closes_Close (s : fd) : closes s [EvClose s : Event TLSConfig ProxyParams] = 1%nat.
Proof. unfold closes. simpl. rewrite Nat.eqb_refl. reflexivity. Qed.

(** The world after a [Write]: at most one event more, never a [Close],
    and no socket opened. *)
Lemma rawConn_Write_world (conn : rawConn) (packet : Packet) (w : world) :
  exists evs,
    (rawConn_Write E conn packet w).2 = mkWorld (trace w ++ evs) (opened w) /\
    forall s, closes s evs = 0%nat.
Proof.
  destruct (Serialize packet (buf conn)) as [b [err|]] eqn:H.
  - rewrite (rawConn_Write_failure E _ _ _ _ _ H). exists []. split; [|reflexivity].
    simpl. rewrite app_nil_r. destruct w; reflexivity.
  - rewrite (rawConn_Write_success E _ _ _ _ H). eexists [_]. split; reflexivity.
Qed.

Lemma netConn_Write_world (conn : netConn TLSConfig) (packet : Packet) (w : world) :
  exists evs,
    (netConn_Write E conn packet w).2 = mkWorld (trace w ++ evs) (opened w) /\
    (forall s, closes s evs = 0%nat) /\
    Forall (on_Conn (nConn conn)) evs.
Proof.
  destruct (Serialize packet (nbuf conn)) as [b [err|]] eqn:H.
  - rewrite (netConn_Write_failure E _ _ _ _ _ H). exists []. split; [|split; [reflexivity|constructor]].
    simpl. rewrite app_nil_r. destruct w; reflexivity.
  - rewrite (netConn_Write_success E _ _ _ _ H). eexists [_].
    split; [reflexivity|]. split; [reflexivity|].
    constructor; [|constructor]. left. eexists. reflexivity.
Qed.

Lemma rawConn_calls_world (cs : list Call) (conn : rawConn) (w : world) :
  exists evs,
    (rawConn_calls E cs conn w).2 = mkWorld (trace w ++ evs) (opened w) /\
    forall s, closes s evs = 0%nat.
Proof.
  revert conn w. induction cs as [|[packet|b] cs IH]; intros conn w.
  - exists []. split; [|reflexivity]. simpl. rewrite app_nil_r. destruct w; reflexivity.
  - cbn [rawConn_calls].
    destruct (rawConn_Write_world conn packet w) as (e1 & H1 & C1).
    destruct (rawConn_Write E conn packet w) as [[conn' r] w']. simpl in H1. subst w'.
    destruct (IH conn' (mkWorld (trace w ++ e1) (opened w))) as (e2 & H2 & C2).
    exists (e1 ++ e2). rewrite H2. simpl. rewrite app_assoc. split; [reflexivity|].
    intros s. rewrite closes_app, C1, C2. reflexivity.
  - cbn [rawConn_calls]. simpl. apply IH.
Qed.

Lemma netConn_calls_world (cs : list Call) (conn : netConn TLSConfig) (w : world) :
  exists evs,
    (netConn_calls E cs conn w).2 = mkWorld (trace w ++ evs) (opened w) /\
    (forall s, closes s evs = 0%nat) /\
    Forall (on_Conn (nConn conn)) evs.
Proof.
  revert conn w. induction cs as [|[packet|b] cs IH]; intros conn w.
  - exists []. split; [|split; [reflexivity|constructor]].
    simpl. rewrite app_nil_r. destruct w; reflexivity.
  - cbn [netConn_calls].
    destruct (netConn_Write_world conn packet w) as (e1 & H1 & C1 & F1).
    destruct (netConn_Write_keeps E conn packet w) as [Hk _].
    destruct (netConn_Write E conn packet w) as [[conn' r] w']. simpl in H1, Hk. subst w'.
    destruct (IH conn' (mkWorld (trace w ++ e1) (opened w))) as (e2 & H2 & C2 & F2).
    exists (e1 ++ e2). rewrite H2. simpl. rewrite app_assoc. split; [reflexivity|]. split.
    + intros s. rewrite closes_app, C1, C2. reflexivity.
    + apply Forall_app. split; [exact F1|]. rewrite <- Hk. exact F2.
  - cbn [netConn_calls]. unfold netConn_Read, Conn_Read.
    destruct (os_Read E (trace w) (nConn conn) (length b)) as [[n err] data].
    destruct (IH conn (emit (EvRead (nConn conn) (length b)) w)) as (e2 & H2 & C2 & F2).
    exists (EvRead (nConn conn) (length b) :: e2). rewrite H2. simpl.
    rewrite <- app_assoc. split; [reflexivity|]. split.
    + intros s. change (EvRead (nConn conn) (length b) :: e2)
        with ([EvRead (nConn conn) (length b)] ++ e2).
      rewrite closes_app, C2. reflexivity.
    + constructor; [|exact F2]. right. eexists. reflexivity.
Qed.

(** The interface dispatches to the methods of the struct it holds. *)
Lemma Connection_calls_raw (cs : list Call) (conn : rawConn) (w : world) :
  Connection_calls E cs (Connection_raw (Some conn)) w =
    Returns (Connection_raw (Some (rawConn_calls E cs conn w).1), (rawConn_calls E cs conn w).2).
Proof.
  revert conn w. induction cs as [|[packet|b] cs IH]; intros conn w.
  - reflexivity.
  - cbn [Connection_calls rawConn_calls Connection_Write].
    destruct (rawConn_Write E conn packet w) as [[conn' r] w']. apply IH.
  - cbn [Connection_calls rawConn_calls Connection_Read]. simpl. apply IH.
Qed.

Lemma Connection_calls_net (cs : list Call) (conn : netConn TLSConfig) (w : world) :
  Connection_calls E cs (Connection_net (Some conn)) w =
    Returns (Connection_net (Some (netConn_calls E cs conn w).1), (netConn_calls E cs conn w).2).
Proof.
  revert conn w. induction cs as [|[packet|b] cs IH]; intros conn w.
  - reflexivity.
  - cbn [Connection_calls netConn_calls Connection_Write].
    destruct (netConn_Write E conn packet w) as [[conn' r] w']. apply IH.
  - cbn [Connection_calls netConn_calls Connection_Read].
    destruct (netConn_Read E conn (length b) w) as [[[n err] data] w']. apply IH.
Qed.

(** What a successful open leaves in the world: one socket more, the one
    the connection holds, and no [Close]. *)
Lemma openRawConn_success_world (c : rawConnConfig) (w w1 : world) conn :
  openRawConn E c w = (Some conn, None, w1) ->
  PacketConn conn = opened w /\
  w1 = mkWorld (trace w ++ [EvListenPacket (Name c) (rawAddress c)]) (S (opened w)).
Proof.
  destruct (os_ListenPacket E (trace w) (Name c) (rawAddress c)) as [err|] eqn:Hl.
  - rewrite (openRawConn_failure E _ _ _ Hl). discriminate.
  - rewrite (openRawConn_success E _ _ Hl). intros [= <- <-]. split; reflexivity.
Qed.

Lemma openNetConn_success_world ctx (c : netConnConfig TLSConfig ProxyParams) proxy
    (w w1 : world) conn :
  openNetConn ProxyParams_zero E ctx c proxy w = (Some conn, None, w1) ->
  Conn_socket (nConn conn) = opened w /\
  exists evs,
    w1 = mkWorld (trace w ++ evs) (S (opened w)) /\ forall s, closes s evs = 0%nat.
Proof.
  destruct (os_Dial E (trace w) ctx (NonNilOrDefault proxy ProxyParams_zero)
              (Protocol c) (Protocol c) (Address c)) as [e|] eqn:Hd.
  - rewrite (openNetConn_dial_failure _ E _ _ _ _ _ Hd). discriminate.
  - destruct (TLSClientConfig c) as [cfg|] eqn:Htls.
    + destruct (os_Handshake E
                  (trace w ++ [EvDial (NonNilOrDefault proxy ProxyParams_zero)
                                 (Protocol c) (Protocol c) (Address c)])
                  (opened w) cfg) as [e|] eqn:Hhs.
      * rewrite (openNetConn_handshake_failure _ E _ _ _ _ _ _ Hd Htls Hhs). discriminate.
      * rewrite (openNetConn_handshake_success _ E _ _ _ _ _ Hd Htls Hhs).
        intros [= <- <-]. split; [reflexivity|]. eexists [_; _]. split; reflexivity.
    + rewrite (openNetConn_plain _ E _ _ _ _ Hd Htls).
      intros [= <- <-]. split; [reflexivity|]. eexists [_]. split; reflexivity.
Qed.

(** X1. A connection that [OpenConnection] returns with a nil error has
    opened exactly one socket and closed none.  Whatever [Write] and
    [Read] calls a caller then makes through the interface, none panics;
    the [Close] that follows returns what the socket's [Close] returns and
    is the one and only [Close] call on the socket this open created. *)
Theorem OpenConnection_lifecycle :
  forall ctx (c : ConnectionConfig ProxyParams) (w w1 : world) (conn : Connection TLSConfig)
         (cs : list Call),
    OpenConnection ProxyParams_zero E ctx c w = (conn, None, w1) ->
    opened w1 = S (opened w) /\
    closes (opened w) (trace w1) = closes (opened w) (trace w) /\
    exists conn' w2,
      Connection_calls E cs conn w1 = Returns (conn', w2) /\
      opened w2 = S (opened w) /\
      Connection_Close E conn' w2 =
        Returns (os_Close E (trace w2) (opened w), emit (EvClose (opened w)) w2) /\
      closes (opened w) (trace (emit (EvClose (opened w)) w2)) =
        S (closes (opened w) (trace w)).
Proof.
  intros ctx c w w1 conn cs Hopen.
  assert (Hclose : forall (w2 : world) evs,
             trace w2 = trace w ++ evs -> closes (opened w) evs = 0%nat ->
             closes (opened w) (trace (emit (EvClose (opened w)) w2)) =
               S (closes (opened w) (trace w))).
  { intros w2 evs Ht Hc. unfold emit. cbn [trace].
    rewrite Ht, !closes_app, Hc, closes_Close. lia. }
  destruct (Type_cases c) as [Hr | [Hn | [Hr Hn]]].
  - rewrite (OpenConnection_raw _ E _ _ _ Hr) in Hopen.
    destruct (Decode_rawConnConfig E (Args c)) as [cfg|err]; [|discriminate].
    destruct (openRawConn E cfg w) as [[p e] w'] eqn:Hraw. simpl in Hopen.
    injection Hopen as <- -> ->.
    destruct p as [rc|].
    2:{ exfalso. revert Hraw.
        destruct (os_ListenPacket E (trace w) (Name cfg) (rawAddress cfg)) as [err|] eqn:Hl.
        - rewrite (openRawConn_failure E _ _ _ Hl). discriminate.
        - rewrite (openRawConn_success E _ _ Hl). discriminate. }
    destruct (openRawConn_success_world _ _ _ _ Hraw) as [Hs ->].
    split; [reflexivity|]. split.
    { simpl. rewrite closes_app. unfold closes at 2. simpl. lia. }
    destruct (rawConn_calls_world cs rc
                (mkWorld (trace w ++ [EvListenPacket (Name cfg) (rawAddress cfg)]) (S (opened w))))
      as (evs & Hw & Hc).
    destruct (rawConn_calls_keeps E cs rc
                (mkWorld (trace w ++ [EvListenPacket (Name cfg) (rawAddress cfg)]) (S (opened w))))
      as [Hk _].
    pose proof (Connection_calls_raw cs rc
                  (mkWorld (trace w ++ [EvListenPacket (Name cfg) (rawAddress cfg)])
                     (S (opened w)))) as Hcalls.
    destruct (rawConn_calls E cs rc _) as [rc' w2]. simpl in Hw, Hk, Hcalls. subst w2.
    eexists _, _. split; [exact Hcalls|].
    split; [reflexivity|]. split.
    + simpl. unfold rawConn_Close, PacketConn_Close. rewrite Hk, Hs. reflexivity.
    + apply (Hclose _ ([EvListenPacket (Name cfg) (rawAddress cfg)] ++ evs)).
      * simpl. rewrite <- app_assoc. reflexivity.
      * rewrite closes_app, Hc. reflexivity.
  - rewrite (OpenConnection_net _ E _ _ _ Hn) in Hopen.
    destruct (Decode_netConnConfig E (Args c)) as [cfg|err]; [|discriminate].
    destruct (openNetConn ProxyParams_zero E ctx cfg (cProxy c) w) as [[p e] w'] eqn:Hnet.
    simpl in Hopen. injection Hopen as <- -> ->.
    destruct p as [nc|]; [|exfalso; exact (openNetConn_not_nil_nil _ E _ _ _ _ _ Hnet)].
    destruct (openNetConn_success_world _ _ _ _ _ _ Hnet) as (Hs & e0 & -> & C0).
    split; [reflexivity|]. split.
    { simpl. rewrite closes_app, C0. lia. }
    destruct (netConn_calls_world cs nc (mkWorld (trace w ++ e0) (S (opened w))))
      as (evs & Hw & Hc & _).
    destruct (netConn_calls_keeps E cs nc (mkWorld (trace w ++ e0) (S (opened w)))) as [Hk _].
    pose proof (Connection_calls_net cs nc (mkWorld (trace w ++ e0) (S (opened w))))
      as Hcalls.
    destruct (netConn_calls E cs nc _) as [nc' w2]. simpl in Hw, Hk, Hcalls. subst w2.
    eexists _, _. split; [exact Hcalls|].
    split; [reflexivity|]. split.
    + simpl. unfold netConn_Close, Conn_Close. rewrite Hk, Hs. reflexivity.
    + apply (Hclose _ (e0 ++ evs)).
      * simpl. rewrite <- app_assoc. reflexivity.
      * rewrite closes_app, C0, Hc. reflexivity.
  - rewrite (OpenConnection_default _ E _ _ _ Hr Hn) in Hopen. discriminate.
Qed.

(** X2. When [OpenConnection] returns an error it leaves no socket open:
    either it opened none, or (a TLS handshake that failed) it opened one
    and closed that one, once.  With [opened] the sockets opened so far
    and [closes] the [Close] calls on the next handle: what the call
    added to the one, it added to the other. *)
Theorem OpenConnection_failure_no_leak :
  forall ctx (c : ConnectionConfig ProxyParams) (w w1 : world) (conn : Connection TLSConfig) err,
    OpenConnection ProxyParams_zero E ctx c w = (conn, Some err, w1) ->
    (opened w1 = opened w /\ closes (opened w) (trace w1) = closes (opened w) (trace w)) \/
    (opened w1 = S (opened w) /\
     closes (opened w) (trace w1) = S (closes (opened w) (trace w))).
Proof.
  intros ctx c w w1 conn err Hopen.
  destruct (Type_cases c) as [Hr | [Hn | [Hr Hn]]].
  - rewrite (OpenConnection_raw _ E _ _ _ Hr) in Hopen.
    destruct (Decode_rawConnConfig E (Args c)) as [cfg|e].
    2:{ injection Hopen as _ _ <-. left. split; reflexivity. }
    destruct (os_ListenPacket E (trace w) (Name cfg) (rawAddress cfg)) as [e|] eqn:Hl.
    + rewrite (openRawConn_failure E _ _ _ Hl) in Hopen. simpl in Hopen.
      injection Hopen as _ _ <-. left. split; [reflexivity|].
      simpl. rewrite closes_app. unfold closes at 2. simpl. lia.
    + rewrite (openRawConn_success E _ _ Hl) in Hopen. discriminate.
  - rewrite (OpenConnection_net _ E _ _ _ Hn) in Hopen.
    destruct (Decode_netConnConfig E (Args c)) as [cfg|e].
    2:{ injection Hopen as _ _ <-. left. split; reflexivity. }
    destruct (os_Dial E (trace w) ctx (NonNilOrDefault (cProxy c) ProxyParams_zero)
                (Protocol cfg) (Protocol cfg) (Address cfg)) as [e|] eqn:Hd.
    + rewrite (openNetConn_dial_failure _ E _ _ _ _ _ Hd) in Hopen. simpl in Hopen.
      injection Hopen as _ _ <-. left. split; [reflexivity|].
      simpl. rewrite closes_app. unfold closes at 2. simpl. lia.
    + destruct (TLSClientConfig cfg) as [tls|] eqn:Htls.
      * destruct (os_Handshake E
                    (trace w ++ [EvDial (NonNilOrDefault (cProxy c) ProxyParams_zero)
                                   (Protocol cfg) (Protocol cfg) (Address cfg)])
                    (opened w) tls) as [e|] eqn:Hhs.
        -- rewrite (openNetConn_handshake_failure _ E _ _ _ _ _ _ Hd Htls Hhs) in Hopen.
           simpl in Hopen. injection Hopen as _ _ <-. right. split; [reflexivity|].
           simpl. rewrite closes_app. unfold closes at 2. simpl.
           rewrite Nat.eqb_refl. simpl. lia.
        -- rewrite (openNetConn_handshake_success _ E _ _ _ _ _ Hd Htls Hhs) in Hopen.
           discriminate.
      * rewrite (openNetConn_plain _ E _ _ _ _ Hd Htls) in Hopen. discriminate.
  - rewrite (OpenConnection_default _ E _ _ _ Hr Hn) in Hopen.
    injection Hopen as _ _ <-. left. split; reflexivity.
Qed.

(** X3. No sequence of [Write] and [Read] calls, on either transport,
    closes a socket or opens one, whatever the packets are and whatever
    the socket answers (a write error included): the connection is left
    for the caller to close. *)
Theorem calls_never_close :
  forall (cs : list Call) (rc : rawConn) (nc : netConn TLSConfig) (w : world) (s : fd),
    (closes s (trace (rawConn_calls E cs rc w).2) = closes s (trace w) /\
     opened (rawConn_calls E cs rc w).2 = opened w) /\
    (closes s (trace (netConn_calls E cs nc w).2) = closes s (trace w) /\
     opened (netConn_calls E cs nc w).2 = opened w).
Proof.
  intros cs rc nc w s. split.
  - destruct (rawConn_calls_world cs rc w) as (evs & -> & Hc).
    simpl. rewrite closes_app, Hc. split; [lia | reflexivity].
  - destruct (netConn_calls_world cs nc w) as (evs & -> & Hc & _).
    simpl. rewrite closes_app, Hc. split; [lia | reflexivity].
Qed.

(** X4. [openNetConn] never reads the [Timeout] and the [Proxy] of its
    [netConnConfig]: two configurations with the same [Protocol],
    [Address] and [TLSClientConfig] open alike.  The proxy used is the one
    of the [ConnectionConfig], passed as [proxyParams]. *)
Theorem openNetConn_ignores_Timeout_Proxy :
  forall ctx (c c' : netConnConfig TLSConfig ProxyParams) proxy (w : world),
    Protocol c' = Protocol c -> Address c' = Address c ->
    TLSClientConfig c' = TLSClientConfig c ->
    openNetConn ProxyParams_zero E ctx c' proxy w = openNetConn ProxyParams_zero E ctx c proxy w.
Proof.
  intros ctx c c' proxy w Hp Ha Ht. unfold openNetConn. rewrite Hp, Ha, Ht. reflexivity.
Qed.

(** X5. For [Type] "raw", [OpenConnection] uses neither the context nor
    the [Proxy] of the configuration: it makes one call,
    [net.ListenPacket] with the decoded [Name] and [Address], and never
    dials. *)
Theorem OpenConnection_raw_direct :
  forall ctx ctx' (c : ConnectionConfig ProxyParams) proxy' (zero' : ProxyParams) (w : world)
         (cfg : rawConnConfig),
    Type_ c = "raw" ->
    Decode_rawConnConfig E (Args c) = inl cfg ->
    OpenConnection ProxyParams_zero E ctx c w =
      OpenConnection zero' E ctx' (mkConnectionConfig "raw" (Args c) proxy') w /\
    trace (OpenConnection ProxyParams_zero E ctx c w).2 =
      trace w ++ [EvListenPacket (Name cfg) (rawAddress cfg)].
Proof.
  intros ctx ctx' c proxy' zero' w cfg Hr Hdec. split.
  - rewrite (OpenConnection_raw _ E _ _ _ Hr).
    rewrite (OpenConnection_raw zero' E ctx' (mkConnectionConfig "raw" (Args c) proxy') w eq_refl).
    reflexivity.
  - rewrite (OpenConnection_raw _ E _ _ _ Hr), Hdec.
    destruct (os_ListenPacket E (trace w) (Name cfg) (rawAddress cfg)) as [err|] eqn:Hl.
    + rewrite (openRawConn_failure E _ _ _ Hl). reflexivity.
    + rewrite (openRawConn_success E _ _ Hl). reflexivity.
Qed.

(** X6. Once a stream connection is opened with a TLS configuration, the
    connection it holds is the TLS client: every later [Write] and [Read]
    goes to the TLS client, none to the dialed socket directly. *)
Theorem netConn_tls_only :
  forall ctx (c : netConnConfig TLSConfig ProxyParams) proxy (w w1 : world)
         (conn : netConn TLSConfig) (cfg : TLSConfig) (cs : list Call),
    TLSClientConfig c = Some cfg ->
    openNetConn ProxyParams_zero E ctx c proxy w = (Some conn, None, w1) ->
    nConn conn = tlsConn (opened w) cfg /\
    exists evs,
      trace (netConn_calls E cs conn w1).2 = trace w1 ++ evs /\
      Forall (on_Conn (tlsConn (opened w) cfg)) evs.
Proof.
  intros ctx c proxy w w1 conn cfg cs Htls Hopen.
  assert (Hc : nConn conn = tlsConn (opened w) cfg).
  { revert Hopen.
    destruct (os_Dial E (trace w) ctx (NonNilOrDefault proxy ProxyParams_zero)
                (Protocol c) (Protocol c) (Address c)) as [e|] eqn:Hd.
    - rewrite (openNetConn_dial_failure _ E _ _ _ _ _ Hd). discriminate.
    - destruct (os_Handshake E
                  (trace w ++ [EvDial (NonNilOrDefault proxy ProxyParams_zero)
                                 (Protocol c) (Protocol c) (Address c)])
                  (opened w) cfg) as [e|] eqn:Hhs.
      + rewrite (openNetConn_handshake_failure _ E _ _ _ _ _ _ Hd Htls Hhs). discriminate.
      + rewrite (openNetConn_handshake_success _ E _ _ _ _ _ Hd Htls Hhs).
        intros [= <- _]. reflexivity. }
  split; [exact Hc|].
  destruct (netConn_calls_world cs conn w1) as (evs & Hw & _ & Hon).
  exists evs. rewrite Hw, <- Hc. split; [reflexivity | exact Hon].
Qed.

(** One [Write] of a packet that honours the contract, on a stream. *)
Lemma netConn_Write_overwriting (conn : netConn TLSConfig) (packet : Packet) (w : world) :
  overwriting packet ->
  trace (netConn_Write E conn packet w).2 =
    trace w ++ sent_net (nConn conn) (CallWrite packet).
Proof.
  intros Hov. unfold sent_net.
  destruct (Serialize packet (nbuf conn)) as [b [err|]] eqn:H.
  - rewrite (netConn_Write_failure E _ _ _ _ _ H).
    rewrite <- (Hov (nbuf conn)), H. simpl. symmetry. apply app_nil_r.
  - rewrite (netConn_Write_success E _ _ _ _ H).
    rewrite <- (Hov (nbuf conn)), H. reflexivity.
Qed.

(** X7. On a stream connection, for every sequence of calls whose
    packets honour the [Serialize] contract, the connection receives call
    after call exactly the bytes of the packet being written (nothing for
    a packet that does not serialise) and one [Read] per [Read] call, in
    order; what is written does not depend on earlier packets, and the
    packet's [IP] plays no part. *)
Theorem netConn_Write_buffer_reuse :
  forall (cs : list Call) (conn : netConn TLSConfig) (w : world),
    Forall honours cs ->
    trace (netConn_calls E cs conn w).2 =
      trace w ++ flat_map (sent_net (nConn conn)) cs.
Proof.
  induction cs as [|[packet|b] cs IH]; intros conn w Hall.
  - simpl. symmetry. apply app_nil_r.
  - inversion Hall as [|? ? Hov Hrest]; subst.
    cbn [netConn_calls flat_map].
    pose proof (netConn_Write_overwriting conn packet w Hov) as Hw.
    destruct (netConn_Write_keeps E conn packet w) as [Hs _].
    destruct (netConn_Write E conn packet w) as [[conn' r] w'].
    simpl in Hw, Hs. rewrite (IH conn' w' Hrest), Hw, Hs.
    rewrite <- app_assoc. reflexivity.
  - inversion Hall as [|? ? _ Hrest]; subst.
    cbn [netConn_calls flat_map sent_net]. unfold netConn_Read, Conn_Read.
    destruct (os_Read E (trace w) (nConn conn) (length b)) as [[n err] data].
    rewrite (IH conn _ Hrest). simpl. rewrite <- app_assoc. reflexivity.
Qed.

(** X8. When the dial fails, [openNetConn] stops there: with or without
    a TLS configuration it makes the one dial call, no handshake and no
    [Close], opens no socket, and returns the nil pointer with the dial
    error as it was given. *)
Theorem openNetConn_dial_failure_stops :
  forall ctx (c : netConnConfig TLSConfig ProxyParams) proxy (w : world) err,
    let params := NonNilOrDefault proxy ProxyParams_zero in
    os_Dial E (trace w) ctx params (Protocol c) (Protocol c) (Address c) = Some err ->
    openNetConn ProxyParams_zero E ctx c proxy w =
      (None, Some err,
       mkWorld (trace w ++ [EvDial params (Protocol c) (Protocol c) (Address c)]) (opened w)) /\
    openNetConn ProxyParams_zero E ctx c proxy w =
      openNetConn ProxyParams_zero E ctx
        (mkNetConnConfig (Protocol c) (Address c) (Timeout c) (Proxy c) None) proxy w.
Proof.
  intros ctx c proxy w err params Hd.
  rewrite (openNetConn_dial_failure _ E _ _ _ _ _ Hd).
  rewrite (openNetConn_dial_failure _ E ctx
             (mkNetConnConfig (Protocol c) (Address c) (Timeout c) (Proxy c) None) proxy w err Hd).
  split; reflexivity.
Qed.

(** X9. The errors of [OpenConnection] are of five kinds and no other: a
    decode failure wrapped with "error decoding connection config: ", the
    "unknown connection type: " error, and the errors of
    [net.ListenPacket], of the dial and of the TLS handshake, these three
    returned as they were given.  In the first two cases the connection
    is the nil interface and nothing was called; in the last three it is
    an interface holding a nil pointer. *)
Theorem OpenConnection_errors :
  forall ctx (c : ConnectionConfig ProxyParams) (w w1 : world) (conn : Connection TLSConfig) err,
    OpenConnection ProxyParams_zero E ctx c w = (conn, Some err, w1) ->
    (exists e, err = Errorf_w "error decoding connection config: " e /\
               conn = Connection_nil /\ w1 = w) \/
    (err = Errorf_v "unknown connection type: " (Type_ c) /\
     conn = Connection_nil /\ w1 = w) \/
    (exists cfg, Decode_rawConnConfig E (Args c) = inl cfg /\
                 os_ListenPacket E (trace w) (Name cfg) (rawAddress cfg) = Some err /\
                 conn = Connection_raw None) \/
    (exists cfg, Decode_netConnConfig E (Args c) = inl cfg /\
                 os_Dial E (trace w) ctx (NonNilOrDefault (cProxy c) ProxyParams_zero)
                   (Protocol cfg) (Protocol cfg) (Address cfg) = Some err /\
                 conn = Connection_net None) \/
    (exists cfg tls, Decode_netConnConfig E (Args c) = inl cfg /\
                     TLSClientConfig cfg = Some tls /\
                     os_Handshake E
                       (trace w ++ [EvDial (NonNilOrDefault (cProxy c) ProxyParams_zero)
                                      (Protocol cfg) (Protocol cfg) (Address cfg)])
                       (opened w) tls = Some err /\
                     conn = Connection_net None).
Proof.
  intros ctx c w w1 conn err Hopen.
  destruct (Type_cases c) as [Hr | [Hn | [Hr Hn]]].
  - rewrite (OpenConnection_raw _ E _ _ _ Hr) in Hopen.
    destruct (Decode_rawConnConfig E (Args c)) as [cfg|e] eqn:Hdec.
    2:{ injection Hopen as <- <- <-. left. exists e. repeat split. }
    destruct (os_ListenPacket E (trace w) (Name cfg) (rawAddress cfg)) as [e|] eqn:Hl.
    + rewrite (openRawConn_failure E _ _ _ Hl) in Hopen. simpl in Hopen.
      injection Hopen as <- <- _. right; right; left. exists cfg. repeat split. exact Hl.
    + rewrite (openRawConn_success E _ _ Hl) in Hopen. discriminate.
  - rewrite (OpenConnection_net _ E _ _ _ Hn) in Hopen.
    destruct (Decode_netConnConfig E (Args c)) as [cfg|e] eqn:Hdec.
    2:{ injection Hopen as <- <- <-. left. exists e. repeat split. }
    destruct (os_Dial E (trace w) ctx (NonNilOrDefault (cProxy c) ProxyParams_zero)
                (Protocol cfg) (Protocol cfg) (Address cfg)) as [e|] eqn:Hd.
    + rewrite (openNetConn_dial_failure _ E _ _ _ _ _ Hd) in Hopen. simpl in Hopen.
      injection Hopen as <- <- _. right; right; right; left. exists cfg. repeat split. exact Hd.
    + destruct (TLSClientConfig cfg) as [tls|] eqn:Htls.
      * destruct (os_Handshake E
                    (trace w ++ [EvDial (NonNilOrDefault (cProxy c) ProxyParams_zero)
                                   (Protocol cfg) (Protocol cfg) (Address cfg)])
                    (opened w) tls) as [e|] eqn:Hhs.
        -- rewrite (openNetConn_handshake_failure _ E _ _ _ _ _ _ Hd Htls Hhs) in Hopen.
           simpl in Hopen. injection Hopen as <- <- _.
           right; right; right; right. exists cfg, tls. repeat split; assumption.
        -- rewrite (openNetConn_handshake_success _ E _ _ _ _ _ Hd Htls Hhs) in Hopen.
           discriminate.
      * rewrite (openNetConn_plain _ E _ _ _ _ Hd Htls) in Hopen. discriminate.
  - rewrite (OpenConnection_default _ E _ _ _ Hr Hn) in Hopen.
    injection Hopen as <- <- <-. right; left. repeat split.
Qed.

(** X10. On a raw connection a [Read] leaves no mark: a sequence of calls
    and the same sequence without its [Read] calls end with the same
    connection and the same world. *)
Theorem rawConn_Read_transparent :
  forall (cs : list Call) (conn : rawConn) (w : world),
    rawConn_calls E cs conn w = rawConn_calls E (List.filter is_Write cs) conn w.
Proof.
  induction cs as [|[packet|b] cs IH]; intros conn w.
  - reflexivity.
  - cbn [List.filter is_Write rawConn_calls].
    destruct (rawConn_Write E conn packet w) as [[conn' r] w']. apply IH.
  - cbn [List.filter is_Write rawConn_calls]. simpl. apply IH.
Qed.

End Lifecycle.

(** * The program's start *)

Example comma_is_the_separator : String comma "" = ",".
Proof. reflexivity. Qed.

Lemma Split_comma_not_nil (s : string) : Split_comma s <> [].
Proof.
  destruct s as [|a rest]; simpl; [discriminate|].
  destruct (Ascii.eqb a comma); [discriminate|].
  destruct (Split_comma rest); discriminate.
Qed.

Lemma Join_comma_cons (a : Ascii.ascii) (first : string) (others : list string) :
  Join_comma (String a first :: others) = String a (Join_comma (first :: others)).
Proof. destruct others; reflexivity. Qed.

(** [strings.Split(s, ",")] always returns at least one part (the empty
    string gives one empty part), no part holds a comma, and joining the
    parts with commas gives [s] back. *)
Lemma Split_comma_Join :
  forall s : string,
    Join_comma (Split_comma s) = s /\
    Forall (fun part => comma_free part = true) (Split_comma s) /\
    (1 <= length (Split_comma s))%nat /\
    Split_comma "" = [""].
Proof.
  intros s. split; [|split; [|split; [|reflexivity]]].
  - induction s as [|a rest IH]; [reflexivity|].
    cbn [Split_comma]. destruct (Ascii.eqb_spec a comma) as [->|Hne].
    + pose proof (Split_comma_not_nil rest) as Hnn.
      destruct (Split_comma rest) as [|p ps] eqn:Hs; [contradiction|].
      change (Join_comma ("" :: p :: ps)) with ("" +:+ "," +:+ Join_comma (p :: ps)).
      rewrite IH. reflexivity.
    + pose proof (Split_comma_not_nil rest) as Hnn.
      destruct (Split_comma rest) as [|p ps] eqn:Hs; [contradiction|].
      rewrite Join_comma_cons, IH. reflexivity.
  - induction s as [|a rest IH]; [repeat constructor|].
    cbn [Split_comma]. destruct (Ascii.eqb_spec a comma) as [->|Hne].
    + constructor; [reflexivity | exact IH].
    + destruct (Split_comma rest) as [|p ps]; [repeat constructor; simpl|].
      * destruct (Ascii.eqb_spec a comma); [contradiction | reflexivity].
      * inversion IH as [|? ? Hp Hps]; subst. constructor; [|exact Hps].
        simpl. destruct (Ascii.eqb_spec a comma); [contradiction | exact Hp].
  - pose proof (Split_comma_not_nil s). destruct (Split_comma s); [contradiction | simpl; lia].
Qed.

(** [setUpPprof] starts a server unless [pprof] is empty and [debug] is off. *)
Lemma setUpPprof_cases (pprof : string) (debug : bool) :
  (pprof = "" /\ debug = false /\ setUpPprof pprof debug = None) \/
  (pprof = "" /\ debug = true /\ exists h, setUpPprof pprof debug = Some (mkServer ":8080" h time_Second time_Second)) \/
  (pprof <> "" /\ exists h, setUpPprof pprof debug = Some (mkServer pprof h time_Second time_Second)).
Proof.
  unfold setUpPprof. destruct (String.eqb_spec pprof "") as [->|Hne].
  - destruct debug; simpl.
    + right; left. repeat split. eexists. reflexivity.
    + left. repeat split.
  - right; right. split; [exact Hne|]. rewrite andb_false_r. eexists. reflexivity.
Qed.

(** X11. [setUpPprof] starts no server exactly when the [pprof] address
    is empty and [debug] is off.  A server it starts never has an empty
    address: it listens on the address given, or on ":8080" when none is
    given in debug mode; its read and write timeouts are one second, and
    it serves the five pprof pages, all under "/debug/pprof/". *)
Theorem setUpPprof_server :
  forall (pprof : string) (debug : bool),
    (setUpPprof pprof debug = None <-> pprof = "" /\ debug = false) /\
    forall srv : Server,
      setUpPprof pprof debug = Some srv ->
      Addr srv <> "" /\
      Addr srv = (if String.eqb pprof "" then ":8080" else pprof) /\
      ReadTimeout srv = 1000000000 /\ WriteTimeout srv = 1000000000 /\
      length (Handler srv) = 5%nat /\
      Forall (fun route => HasPrefix route.1 "/debug/pprof/" = true) (Handler srv).
Proof.
  intros pprof debug. split.
  - destruct (setUpPprof_cases pprof debug)
      as [(Hp & Hd & H) | [(Hp & Hd & h & H) | (Hp & h & H)]]; rewrite H.
    + split; [intros _; split; assumption | reflexivity].
    + split; [discriminate | intros [_ Hf]; congruence].
    + split; [discriminate | intros [Hf _]; contradiction].
  - intros srv. unfold setUpPprof.
    destruct (String.eqb_spec pprof "") as [->|Hne].
    + destruct debug; simpl; [|discriminate].
      intros [= <-]. simpl. repeat split; try discriminate. repeat constructor.
    + rewrite andb_false_r. intros [= <-]. simpl.
      repeat split; try assumption. repeat constructor.
Qed.

Section BootstrapProperties.

Context {AtomicLevel TimeEncoder EncoderRest ConfigRest Logger : Type}.
Variable zap : Zap AtomicLevel TimeEncoder EncoderRest ConfigRest Logger.
Variable ToMiB : Z -> Z.

Local Abbreviation base debug := (if debug then NewDevelopmentConfig zap else NewProductionConfig zap).

(** X12. The log level and the log format do not interfere.  The level of
    the configuration is the one [zap.ParseAtomicLevel] reads from
    [logLevel]; when it reads none (as for the default "none") the error
    is dropped and the level is the default of the production or
    development configuration.  Encoding, encoder keys and the other
    fields do not depend on [logLevel]. *)
Theorem newZapLogger_level :
  forall (debug : bool) (logLevel logLevel' logFormat : string),
    let cfg := newZapLogger_cfg zap debug logLevel logFormat in
    Level cfg = match ParseAtomicLevel zap logLevel with
                | inl level => level
                | inr _ => Level (base debug)
                end /\
    Encoding cfg = Encoding (newZapLogger_cfg zap debug logLevel' logFormat) /\
    EncoderConfig cfg = EncoderConfig (newZapLogger_cfg zap debug logLevel' logFormat) /\
    configRest cfg = configRest (base debug).
Proof.
  intros debug logLevel logLevel' logFormat cfg. unfold cfg, newZapLogger_cfg.
  destruct (ParseAtomicLevel zap logLevel), (ParseAtomicLevel zap logLevel'),
    (String.eqb logFormat simpleLogFormat), (String.eqb logFormat ""), debug;
    repeat split.
Qed.

(** X13. With the format "simple" the logger is a console logger without
    time and name: the configuration is the one of the format "console"
    with [TimeKey] and [NameKey] emptied, with [CallerKey] and
    [StacktraceKey] emptied too unless [debug] is on, and with the time
    encoder of the default configuration instead of RFC 3339. *)
Theorem newZapLogger_simple :
  forall (debug : bool) (logLevel : string),
    let simple := newZapLogger_cfg zap debug logLevel "simple" in
    let console := newZapLogger_cfg zap debug logLevel "console" in
    Encoding simple = "console" /\ Encoding console = "console" /\
    Level simple = Level console /\ configRest simple = configRest console /\
    encoderRest (EncoderConfig simple) = encoderRest (EncoderConfig console) /\
    TimeKey (EncoderConfig simple) = "" /\ NameKey (EncoderConfig simple) = "" /\
    CallerKey (EncoderConfig simple) =
      (if debug then CallerKey (EncoderConfig console) else "") /\
    StacktraceKey (EncoderConfig simple) =
      (if debug then StacktraceKey (EncoderConfig console) else "") /\
    EncodeTime (EncoderConfig simple) = EncodeTime (EncoderConfig (base debug)) /\
    EncodeTime (EncoderConfig console) = RFC3339TimeEncoder zap.
Proof.
  intros debug logLevel simple console. unfold simple, console, newZapLogger_cfg.
  change (String.eqb "simple" simpleLogFormat) with true.
  change (String.eqb "console" simpleLogFormat) with false.
  change (String.eqb "console" "") with false.
  change (String.eqb "console" "console") with true.
  destruct (ParseAtomicLevel zap logLevel), debug; repeat split.
Qed.

(** X14. A format other than "simple" is handed to zap as it is, the
    empty format apart, which keeps the encoding of the default
    configuration.  The encoder keys are those of the default
    configuration, and only the format "console" changes the time
    encoder, to RFC 3339. *)
Theorem newZapLogger_format :
  forall (debug : bool) (logLevel logFormat : string),
    logFormat <> "simple" ->
    let cfg := newZapLogger_cfg zap debug logLevel logFormat in
    let ec := EncoderConfig cfg in
    let ec0 := EncoderConfig (base debug) in
    Encoding cfg = (if String.eqb logFormat "" then Encoding (base debug) else logFormat) /\
    TimeKey ec = TimeKey ec0 /\ NameKey ec = NameKey ec0 /\
    CallerKey ec = CallerKey ec0 /\ StacktraceKey ec = StacktraceKey ec0 /\
    encoderRest ec = encoderRest ec0 /\
    EncodeTime ec = (if String.eqb logFormat "console" then RFC3339TimeEncoder zap
                     else EncodeTime ec0).
Proof.
  intros debug logLevel logFormat Hns cfg ec ec0. unfold ec, ec0, cfg, newZapLogger_cfg.
  destruct (String.eqb_spec logFormat simpleLogFormat) as [Heq|_]; [contradiction|].
  destruct (String.eqb_spec logFormat "") as [->|_].
  - change (String.eqb "" "console") with false.
    destruct (ParseAtomicLevel zap logLevel), debug; repeat split.
  - destruct (ParseAtomicLevel zap logLevel), (String.eqb logFormat "console"), debug;
      repeat split.
Qed.

(** What [main] returns when the logger is built. *)
Lemma main_with_logger (f : Flags) (rlimit : option error) (checked initialised : bool)
    (logger : Logger) :
  newZapLogger zap (debug f) (logLevel f) (logFormat f) = inl logger ->
  main zap f rlimit checked initialised =
    if help f then Returns [LogInfo_running; flag_Usage]
    else if version f then Returns [LogInfo_running]
    else if updaterMode f then
      Returns [LogInfo_running;
               config_UpdateLocal (destinationPath f) (Split_comma (PathsCSV f))
                 (BackupConfig f) (SkipEncrypted f)]
    else
      Returns ([LogInfo_running; utils_UpdateRLimit] ++
               match rlimit with Some err => [LogWarn_rlimit err] | None => [] end ++
               [go_periodicGC (periodicGCEnabled f) (RefreshTimeout f);
                go_WatchUpdates;
                call_setUpPprof (setUpPprof (pprof f) (debug f));
                rand_Seed;
                utils_CheckCountryOrFail] ++
               if negb checked then [process_exits]
               else
                 [metrics_InitOrFail (prometheusOn f) (prometheusListenAddress f) (ClientID f)] ++
                 if negb initialised then [process_exits]
                 else [Runner_Run (newReporter (logFormat f) (lessStats f) logger); cancel]).
Proof.
  intros H. unfold main. rewrite H.
  destruct (help f), (version f), (updaterMode f); reflexivity.
Qed.

(** X15. [main] reaches the job runner exactly when the logger can be
    built, none of [-h], [-version] and the updater mode is asked for, and
    [utils.CheckCountryOrFail] and [metrics.InitOrFail], which run before
    it, both return rather than end the process.  A logger that cannot be
    built makes [main] panic whatever the flags are, [-h] and [-version]
    included, and nothing else does. *)
Theorem main_runs_iff :
  forall (f : Flags) (rlimit : option error) (checked initialised : bool),
    ((exists acts reporter,
        main zap f rlimit checked initialised = Returns acts /\
        In (Runner_Run reporter) acts) <->
     (exists logger, newZapLogger zap (debug f) (logLevel f) (logFormat f) = inl logger) /\
     help f = false /\ version f = false /\ updaterMode f = false /\
     checked = true /\ initialised = true) /\
    (main zap f rlimit checked initialised = Panics <->
     exists err, newZapLogger zap (debug f) (logLevel f) (logFormat f) = inr err).
Proof.
  intros f rlimit checked initialised.
  destruct (newZapLogger zap (debug f) (logLevel f) (logFormat f)) as [logger|err] eqn:Hlog.
  - rewrite (main_with_logger f rlimit checked initialised logger Hlog). split.
    + split.
      * intros (acts & reporter & Hm & Hin). split; [exists logger; reflexivity|].
        destruct (help f); [injection Hm as <-; simpl in Hin; intuition discriminate|].
        destruct (version f); [injection Hm as <-; simpl in Hin; intuition discriminate|].
        destruct (updaterMode f); [injection Hm as <-; simpl in Hin; intuition discriminate|].
        injection Hm as <-.
        destruct checked, initialised, rlimit; simpl in Hin;
          try (repeat split; fail); intuition discriminate.
      * intros (_ & -> & -> & -> & -> & ->). eexists _, _. split; [reflexivity|].
        destruct rlimit; simpl; tauto.
    + split; [|intros [e He]; discriminate].
      destruct (help f), (version f), (updaterMode f); discriminate.
  - unfold main. rewrite Hlog. split.
    + split; [intros (acts & reporter & Hm & _); discriminate|].
      intros ([logger Hl] & _). discriminate.
    + split; [intros _; exists err; reflexivity | reflexivity].
Qed.

(** X16. When [-h], [-version] or the updater mode is asked for, [main]
    starts nothing: no limit change, no goroutine, no pprof server, no
    metrics, no runner.  [-h] comes first and [-version] second: with
    [-h] the only calls are the start-up log line and the usage text,
    whatever the other flags. *)
Theorem main_one_shot :
  forall (f : Flags) (rlimit : option error) (checked initialised : bool) (logger : Logger),
    newZapLogger zap (debug f) (logLevel f) (logFormat f) = inl logger ->
    help f || version f || updaterMode f = true ->
    exists acts,
      main zap f rlimit checked initialised = Returns acts /\
      Forall (fun a => starts_something a = false) acts /\
      (help f = true -> acts = [LogInfo_running; flag_Usage]) /\
      (help f = false -> version f = true -> acts = [LogInfo_running]).
Proof.
  intros f rlimit checked initialised logger Hlog Hany.
  rewrite (main_with_logger f rlimit checked initialised logger Hlog).
  destruct (help f), (version f), (updaterMode f); try discriminate Hany;
    eexists; (split; [reflexivity|]); (split; [repeat constructor|]);
    split; intros; congruence.
Qed.

(** X17. In updater mode [main] makes one call of [config.UpdateLocal],
    with the destination, the backup configuration and the
    skip-encrypted option as given and with the paths of [PathsCSV] cut at
    the commas: there is always at least one path (an empty [PathsCSV]
    gives one empty path), no path holds a comma, and the paths joined by
    commas are [PathsCSV]. *)
Theorem main_updater :
  forall (f : Flags) (rlimit : option error) (checked initialised : bool) (logger : Logger),
    newZapLogger zap (debug f) (logLevel f) (logFormat f) = inl logger ->
    help f = false -> version f = false -> updaterMode f = true ->
    exists paths,
      main zap f rlimit checked initialised =
        Returns [LogInfo_running;
                 config_UpdateLocal (destinationPath f) paths (BackupConfig f) (SkipEncrypted f)] /\
      Join_comma paths = PathsCSV f /\
      (1 <= length paths)%nat /\
      Forall (fun path => comma_free path = true) paths.
Proof.
  intros f rlimit checked initialised logger Hlog Hh Hv Hu.
  exists (Split_comma (PathsCSV f)).
  rewrite (main_with_logger f rlimit checked initialised logger Hlog), Hh, Hv, Hu.
  destruct (Split_comma_Join (PathsCSV f)) as (Hj & Hc & Hl & _).
  repeat split; assumption.
Qed.

(** X18. A failure of [utils.UpdateRLimit] only adds a warning to the
    log: the calls that [main] makes before and after it are the same as
    when the limit is raised, whether or not a later call ends the
    process.  When [utils.CheckCountryOrFail] and [metrics.InitOrFail]
    return, the runner is started in both runs, with the same reporter,
    the console reporter exactly when the log format is "simple". *)
Theorem main_rlimit_failure :
  forall (f : Flags) (err : error) (checked initialised : bool) (logger : Logger),
    newZapLogger zap (debug f) (logLevel f) (logFormat f) = inl logger ->
    help f = false -> version f = false -> updaterMode f = false ->
    exists before after,
      main zap f None checked initialised = Returns (before ++ after) /\
      main zap f (Some err) checked initialised =
        Returns (before ++ [LogWarn_rlimit err] ++ after) /\
      before = [LogInfo_running; utils_UpdateRLimit] /\
      (checked = true -> initialised = true ->
       In (Runner_Run (newReporter (logFormat f) (lessStats f) logger)) after) /\
      (forall reporter, In (Runner_Run reporter) after ->
                        reporter = newReporter (logFormat f) (lessStats f) logger) /\
      (newReporter (logFormat f) (lessStats f) logger = ConsoleReporter (lessStats f) <->
       logFormat f = "simple").
Proof.
  intros f err checked initialised logger Hlog Hh Hv Hu.
  rewrite !(main_with_logger f _ checked initialised logger Hlog), Hh, Hv, Hu.
  eexists _, _. split; [reflexivity|]. split; [reflexivity|]. split; [reflexivity|].
  split; [intros -> ->; simpl; tauto|]. split.
  - intros reporter Hin. destruct checked, initialised; simpl in Hin;
      intuition (try discriminate; congruence).
  - unfold newReporter, simpleLogFormat.
    destruct (String.eqb_spec (logFormat f) "simple") as [Heq|Hne].
    + split; [intros _; exact Heq | reflexivity].
    + split; [discriminate | contradiction].
Qed.

(** [periodicGC] does nothing at all when it is not enabled; when it is,
    every round of its loop runs one collection and logs one entry. *)
Lemma periodicGC_rounds_count :
  forall (enabled : bool) (period : Z) (allocs : list (Z * Z)),
    let steps := periodicGC ToMiB enabled period allocs in
    (enabled = false -> steps = []) /\
    length (List.filter is_runtime_GC steps) = (if enabled then length allocs else 0%nat) /\
    length (GC_entries steps) = (if enabled then length allocs else 0%nat).
Proof.
  intros enabled period allocs steps. unfold steps, periodicGC.
  destruct enabled; simpl; [|repeat split].
  split; [discriminate|].
  induction allocs as [|[b a] rest [IH1 IH2]]; [split; reflexivity|].
  simpl. rewrite IH1, IH2. split; reflexivity.
Qed.

(** X19. The "recovered" field of a [periodicGC] log entry is an unsigned
    difference: when the heap is smaller after the collection it is
    [ToMiB] of what was freed; when the heap is larger after it (other
    goroutines allocate meanwhile) the difference wraps around 2^64 and
    the entry reports [ToMiB] of 2^64 minus the growth. *)
Theorem periodicGC_recovered :
  forall (period : Z) (allocs : list (Z * Z)),
    Forall (fun r => 0 <= r.1 < 2 ^ 64 /\ 0 <= r.2 < 2 ^ 64) allocs ->
    GC_entries (periodicGC ToMiB true period allocs) =
      map (fun r =>
             mkGCLog (ToMiB r.1) (ToMiB r.2)
               (ToMiB (if r.2 <=? r.1 then r.1 - r.2 else 2 ^ 64 - (r.2 - r.1))))
          allocs.
Proof.
  intros period allocs Hall. unfold periodicGC. simpl.
  induction Hall as [|[b a] rest [Hb Ha] _ IH]; [reflexivity|].
  simpl in Hb, Ha. cbn [periodicGC_rounds map]. simpl. rewrite IH. f_equal. f_equal. f_equal.
  unfold sub_uint64. destruct (Z.leb_spec a b).
  - apply Z.mod_small. lia.
  - symmetry. apply (Z.mod_unique _ _ (-1)); lia.
Qed.

End BootstrapProperties.

(** ** The start of the program on the samples *)

Example newZapLogger_default :
  newZapLogger sample_zap false "none" "simple" =
    inl (mkConfig "info" "console" (mkEncoderConfig "" "" "" "" "epoch" tt) tt).
Proof. reflexivity. Qed.

Example main_panics_on_unknown_format :
  main sample_zap
    (mkFlags true false false false false false false "info" "xml" "" "" "" "" "" 0 false "")
    None true true = Panics.
Proof. reflexivity. Qed.

Lemma newZapLogger_format_witness :
  Encoding (newZapLogger_cfg sample_zap false "none" "json") = "json" /\
  EncodeTime (EncoderConfig (newZapLogger_cfg sample_zap false "none" "json")) = "epoch".
Proof.
  destruct (newZapLogger_format sample_zap false "none" "json") as (H1 & _ & _ & _ & _ & _ & H2);
    [discriminate|].
  split; [exact H1 | exact H2].
Defined.

Lemma main_one_shot_witness :
  exists acts,
    main sample_zap updater_flags None true true = Returns acts /\
    Forall (fun a => starts_something a = false) acts.
Proof.
  destruct (main_one_shot sample_zap updater_flags None true true _ eq_refl eq_refl)
    as (acts & H1 & H2 & _).
  exists acts. split; [exact H1 | exact H2].
Defined.

Lemma main_updater_witness :
  exists paths,
    main sample_zap updater_flags None true true =
      Returns [LogInfo_running; config_UpdateLocal "config/config.json" paths "" false] /\
    Join_comma paths = "https://a.example/config.json,https://b.example/config.json" /\
    (1 <= length paths)%nat.
Proof.
  destruct (main_updater sample_zap updater_flags None true true _
              eq_refl eq_refl eq_refl eq_refl)
    as (paths & H1 & H2 & H3 & _).
  exists paths. repeat split; assumption.
Defined.

Lemma main_rlimit_failure_witness :
  exists before after,
    main sample_zap sample_flags None true true = Returns (before ++ after) /\
    main sample_zap sample_flags (Some (errorString "operation not permitted")) true true =
      Returns (before ++ [LogWarn_rlimit (errorString "operation not permitted")] ++ after).
Proof.
  destruct (main_rlimit_failure sample_zap sample_flags (errorString "operation not permitted")
              true true _ eq_refl eq_refl eq_refl eq_refl) as (before & after & H1 & H2 & _).
  exists before, after. split; [exact H1 | exact H2].
Defined.

Lemma periodicGC_recovered_witness :
  GC_entries (periodicGC sample_ToMiB true 60000000000
                [(209715200, 104857600); (104857600, 209715200)]) =
    [mkGCLog 200 100 100; mkGCLog 100 200 17592186044316].
Proof.
  rewrite (periodicGC_recovered sample_ToMiB 60000000000
             [(209715200, 104857600); (104857600, 209715200)]).
  - reflexivity.
  - repeat constructor; simpl; lia.
Defined.

(** ** The life of a connection on the samples *)

Lemma OpenConnection_lifecycle_witness :
  let E := sample_env None None None in
  let w1 := mkWorld [EvListenPacket "ip6:ip" "::"] 1 in
  exists conn' w2,
    Connection_calls E sample_calls (Connection_raw (Some sample_rawConn)) w1 =
      Returns (conn', w2) /\
    Connection_Close E conn' w2 = Returns (None, emit (EvClose 0%nat) w2) /\
    closes 0%nat (trace (emit (EvClose 0%nat) w2)) = 1%nat.
Proof.
  intros E w1.
  destruct (OpenConnection_lifecycle "" E tt raw_config world0 w1 _ sample_calls
              OpenConnection_raw_scenario) as (_ & _ & conn' & w2 & H1 & _ & H2 & H3).
  exists conn', w2. repeat split; assumption.
Defined.

Lemma OpenConnection_failure_no_leak_witness :
  let r := OpenConnection "" (sample_tls_env None (Some EOF)) tt net_config world0 in
  r.1 = (Connection_net None, Some EOF) /\
  opened r.2 = 1%nat /\ closes 0%nat (trace r.2) = 1%nat.
Proof.
  intros r.
  destruct (OpenConnection_failure_no_leak "" (sample_tls_env None (Some EOF)) tt net_config
              world0 r.2 (Connection_net None) EOF eq_refl) as [[H1 H2] | [H1 H2]].
  - discriminate H1.
  - split; [reflexivity|]. split; [exact H1 | exact H2].
Defined.

Lemma openNetConn_ignores_Timeout_Proxy_witness :
  let E := sample_env None None None in
  openNetConn "" E tt tls_netConnConfig' None world0 =
    openNetConn "" E tt tls_netConnConfig None world0.
Proof.
  intros E.
  exact (openNetConn_ignores_Timeout_Proxy "" E tt tls_netConnConfig tls_netConnConfig' None
           world0 eq_refl eq_refl eq_refl).
Defined.

Lemma OpenConnection_raw_direct_witness :
  let E := sample_env None None None in
  OpenConnection "" E tt raw_config world0 =
    OpenConnection "socks5://other.example:1080" E tt
      (mkConnectionConfig "raw" (Args raw_config) (Some "socks5://proxy.example:1080")) world0 /\
  trace (OpenConnection "" E tt raw_config world0).2 = [EvListenPacket "ip6:ip" "::"].
Proof.
  intros E.
  assert (Hdec : Decode_rawConnConfig E (Args raw_config) = inl (mkRawConnConfig "ip6:ip" "::"))
    by (vm_compute; reflexivity).
  exact (OpenConnection_raw_direct "" E tt tt raw_config (Some "socks5://proxy.example:1080")
           "socks5://other.example:1080" world0 _ eq_refl Hdec).
Defined.

Lemma netConn_tls_only_witness :
  let E := sample_env None None None in
  let conn := mkNetConn (tlsConn 0%nat tt) NewSerializeBuffer "tcp://example:443" in
  let w1 := mkWorld [EvDial "" "tcp" "tcp" "example:443"; EvHandshake 0%nat] 1 in
  exists evs,
    trace (netConn_calls E (CallRead [] :: sample_calls) conn w1).2 = trace w1 ++ evs /\
    Forall (on_Conn (tlsConn 0%nat tt)) evs.
Proof.
  intros E conn w1.
  destruct (netConn_tls_only "" E tt tls_netConnConfig None world0 w1 conn tt
              (CallRead [] :: sample_calls) eq_refl eq_refl) as [_ H].
  exact H.
Defined.

Lemma netConn_Write_buffer_reuse_witness :
  trace (netConn_calls (sample_env None None None) (CallRead [] :: sample_calls)
           sample_netConn world0).2 =
    [EvRead (plainConn 0%nat) 0;
     EvWrite (plainConn 0%nat) (String.list_byte_of_string "PING");
     EvWrite (plainConn 0%nat) (String.list_byte_of_string "PONG")].
Proof.
  rewrite (netConn_Write_buffer_reuse (sample_env None None None) (CallRead [] :: sample_calls)
             sample_netConn world0).
  - reflexivity.
  - constructor; [exact I | exact sample_calls_honour].
Defined.

Lemma openNetConn_dial_failure_stops_witness :
  let E := sample_env None (Some EOF) None in
  openNetConn "" E tt tls_netConnConfig None world0 =
    (None, Some EOF, mkWorld [EvDial "" "tcp" "tcp" "example:443"] 0).
Proof.
  intros E.
  destruct (openNetConn_dial_failure_stops "" E tt tls_netConnConfig None world0 EOF eq_refl)
    as [H _].
  exact H.
Defined.

Lemma OpenConnection_errors_witness :
  let E := sample_env (Some EPERM) None None in
  exists cfg,
    Decode_rawConnConfig E (Args raw_config) = inl cfg /\
    os_ListenPacket E (trace world0) (Name cfg) (rawAddress cfg) = Some EPERM.
Proof.
  intros E.
  destruct (OpenConnection_errors "" E tt raw_config world0
              (mkWorld [EvListenPacket "ip6:ip" "::"] 0) (Connection_raw None) EPERM)
    as [(e & He & _) | [(He & _) | [(cfg & Hd & Hl & _) | [(cfg & _ & _ & Hc) |
                                                          (cfg & tls & _ & _ & _ & Hc)]]]].
  - vm_compute. reflexivity.
  - discriminate He.
  - vm_compute in He. discriminate He.
  - exists cfg. split; [exact Hd | exact Hl].
  - discriminate Hc.
  - discriminate Hc.
Defined.

(** When the country check ends the process, [main] stops there: the
    metrics and the runner are never reached. *)
Example main_stops_at_country_check :
  main sample_zap sample_flags None false true =
    Returns [LogInfo_running; utils_UpdateRLimit;
             go_periodicGC false 60000000000; go_WatchUpdates; call_setUpPprof None;
             rand_Seed; utils_CheckCountryOrFail; process_exits].
Proof. reflexivity. Qed.
